(** * Offline mutation reconciliation of the routines hook

    A shallow embedding of [src/hooks/useRoutines.ts] (the [useRoutines]
    hook) and of the offline storage module it imports
    ([utils/offlineStorage]), followed by the properties of the
    reconciliation pass [syncOfflineChangesEnhanced] and of the hook
    operations that produce the mutation markers it replays. *)

From stdpp Require Import gmap strings list fin_maps pretty.
From Stdlib Require Import ZArith Lia.

Local Open Scope string_scope.
Local Open Scope list_scope.

(** ** JavaScript values and plain objects *)

Inductive Val :=
| VUndef
| VNull
| VBool (b : bool)
| VNum (n : Z)
| VStr (s : string).

#[global] Instance Val_eq_dec : EqDecision Val.
Proof. solve_decision. Defined.

(** Truthiness, as tested by [!x], [x && y] and [if (x)]. *)
Definition truthy (v : Val) : bool :=
  match v with
  | VUndef | VNull => false
  | VBool b => b
  | VNum n => negb (n =? 0)%Z
  | VStr s => negb (String.eqb s "")
  end.

(** A plain object whose properties hold primitive values. *)
Abbreviation Obj := (gmap string Val).

(** Property read [o.k]: a missing property reads as [undefined]. *)
Definition prop (o : Obj) (k : string) : Val := default VUndef (o !! k).

(** A routine time-slot is a plain object; a routine is a plain object
    with one more property, [slots], that holds an array of slots when
    it is present and defined. *)
Abbreviation RoutineSlot := Obj (only parsing).

Record Routine := mkRoutine {
  fields : Obj;
  slots : option (list Obj)
}.

#[global] Instance Routine_eq_dec : EqDecision Routine.
Proof. solve_decision. Defined.

Definition rid (r : Routine) : Val := prop (fields r) "id".
Definition sid (s : RoutineSlot) : Val := prop s "id".

(** [{ ...r, k: v }] on a routine, for a property other than [slots]. *)
Definition withField (k : string) (v : Val) (r : Routine) : Routine :=
  {| fields := <[k := v]> (fields r); slots := slots r |}.

(** [{ ...r, slots: ss }]. *)
Definition withSlots (ss : option (list Obj)) (r : Routine) : Routine :=
  {| fields := fields r; slots := ss |}.

(** [arr.findIndex(p)]: [None] stands for the result -1. *)
Definition findIndex {A} (P : A → Prop) `{!∀ x, Decision (P x)}
    (l : list A) : option nat :=
  fst <$> list_find P l.

(** ** Exceptions and settled promises *)

Inductive Exn :=
| ReferenceError (ident : string)
| Error (message : string)
| Thrown (v : Val).

(** [err.message] *)
Definition message (e : Exn) : Val :=
  match e with
  | ReferenceError ident => VStr (ident +:+ " is not defined")
  | Error m => VStr m
  | Thrown _ => VUndef
  end.

Inductive Settled (A : Type) :=
| Fulfilled (a : A)
| Rejected (e : Exn).
Arguments Fulfilled {A} a.
Arguments Rejected {A} e.

#[global] Instance Exn_eq_dec : EqDecision Exn.
Proof. solve_decision. Defined.

#[global] Instance Settled_eq_dec {A} `{EqDecision A} : EqDecision (Settled A).
Proof. solve_decision. Defined.

(** ** The remote routine service ([services/routine.service])

    The module is not part of the sources at hand: the hook only
    imports it. Its operations are taken as a parameter [serve] below;
    a call either resolves with a value or rejects. *)

Module RoutineService.
Inductive Export :=
| fetchRoutines | createRoutine | updateRoutine | deleteRoutine
| addRoutineSlot | updateRoutineSlot | deleteRoutineSlot
| activateRoutine | deactivateRoutine
| bulkImportRoutineSlots | exportRoutineWithSlots
| getAllSemesters | getRoutinesBySemester.
End RoutineService.

Inductive RemoteCall :=
| CreateRoutine (routine : Routine)
| UpdateRoutine (id : Val) (updates : Routine)
| DeleteRoutine (id : Val)
| ActivateRoutine (id : Val)
| DeactivateRoutine (id : Val)
| AddRoutineSlot (routineId : Val) (slot : RoutineSlot)
| UpdateRoutineSlot (routineId slotId : Val) (updates : RoutineSlot)
| DeleteRoutineSlot (routineId slotId : Val).

#[global] Instance RemoteCall_eq_dec : EqDecision RemoteCall.
Proof. solve_decision. Defined.

(** What a call resolves with. *)
Definition Returns (c : RemoteCall) : Type :=
  match c with
  | CreateRoutine _ => Routine
  | AddRoutineSlot _ _ => RoutineSlot
  | _ => unit
  end.

(** The import list of the hook, lines 3-17: local identifier and the
    export it is bound to. *)
Definition imports : list (string * RoutineService.Export) :=
  [ ("fetchRoutines", RoutineService.fetchRoutines);
    ("createRoutineService", RoutineService.createRoutine);
    ("updateRoutineService", RoutineService.updateRoutine);
    ("deleteRoutineService", RoutineService.deleteRoutine);
    ("addRoutineSlot", RoutineService.addRoutineSlot);
    ("updateRoutineSlot", RoutineService.updateRoutineSlot);
    ("deleteRoutineSlot", RoutineService.deleteRoutineSlot);
    ("activateRoutineService", RoutineService.activateRoutine);
    ("deactivateRoutineService", RoutineService.deactivateRoutine);
    ("bulkImportRoutineSlotsService", RoutineService.bulkImportRoutineSlots);
    ("exportRoutineWithSlotsService", RoutineService.exportRoutineWithSlots);
    ("getAllSemestersService", RoutineService.getAllSemesters);
    ("getRoutinesBySemesterService", RoutineService.getRoutinesBySemester) ].

(** The service operation that the import list binds to an
    identifier, if any. The hook calls the routine-level services
    under their aliases; it calls the slot services as
    [addRoutineSlotService], [updateRoutineSlotService] and
    [deleteRoutineSlotService], names that nothing declares (the
    import list binds them without alias, under the names that the
    hook gives to its own operations): calling one throws a
    [ReferenceError] before anything is sent. *)
Definition moduleScope (ident : string) : option RoutineService.Export :=
  snd <$> List.find (λ b, String.eqb (fst b) ident) imports.

(** ** The offline storage module ([utils/offlineStorage]) *)

Definition STORES_ROUTINES : string := "routines".
Definition CACHE_TIMESTAMP_KEY : string := "routines_last_fetched".

(** The [data: any] argument of [saveToIndexedDB]: the hook passes
    either the whole collection or one routine. *)
Inductive StoreData :=
| Records (l : list Routine)
| OneRecord (r : Routine).

#[global] Instance StoreData_eq_dec : EqDecision StoreData.
Proof. solve_decision. Defined.

Record OfflineStorage := {
  Store : Type;
  readAll : string → Store → Store * Settled (list Routine);
  writeData : string → StoreData → Store → Store * Settled unit
}.

(** The module as shipped (caching disabled): reads resolve to the
    empty array and writes are no-ops. *)
Definition disabledStorage : OfflineStorage := {|
  Store := unit;
  readAll := λ _ s, (s, Fulfilled []);
  writeData := λ _ _ s, (s, Fulfilled ())
|}.

(** Modelled from the spec: the working local persistent store, which
    the shipped module stubs out. It holds the routines collection;
    get-all returns it and save replaces the whole collection. Saving
    one record (which the spec does not describe) puts it in place of
    the stored record with the same identifier, or appends it. *)
Definition putRecord (r : Routine) (l : list Routine) : list Routine :=
  match findIndex (λ x, rid x = rid r) l with
  | Some i => <[i := r]> l
  | None => l ++ [r]
  end.

Definition collectionStorage : OfflineStorage := {|
  Store := list Routine;
  readAll := λ _ s, (s, Fulfilled s);
  writeData := λ _ d s,
    match d with
    | Records l => (l, Fulfilled ())
    | OneRecord r => (putRecord r s, Fulfilled ())
    end
|}.

#[global] Instance collectionStorage_eq_dec : EqDecision (Store collectionStorage).
Proof. simpl. apply _. Defined.

(** ** Observable events *)

Inductive Outcome :=
| Unbound
| Threw (e : Exn)
| Returned
| ReturnedRoutine (r : Routine)
| ReturnedSlot (s : RoutineSlot).

Definition outcomeOf {c : RemoteCall} : Settled (Returns c) → Outcome :=
  match c return Settled (Returns c) → Outcome with
  | CreateRoutine _ => λ r,
      match r with Fulfilled a => ReturnedRoutine a | Rejected e => Threw e end
  | AddRoutineSlot _ _ => λ r,
      match r with Fulfilled a => ReturnedSlot a | Rejected e => Threw e end
  | _ => λ r,
      match r with Fulfilled _ => Returned | Rejected e => Threw e end
  end.

Inductive Event :=
| Service (ident : string) (call : RemoteCall) (o : Outcome)
| StorageGetAll (storeName : string)
| StorageSave (storeName : string) (data : StoreData).

#[global] Instance Outcome_eq_dec : EqDecision Outcome.
Proof. solve_decision. Defined.

#[global] Instance Event_eq_dec : EqDecision Event.
Proof. solve_decision. Defined.

(** A remote call was issued when the identifier was bound. *)
Definition isRemoteCall (e : Event) : bool :=
  match e with
  | Service _ _ Unbound => false
  | Service _ _ _ => true
  | _ => false
  end.

(** An awaited service call threw. *)
Definition isFailure (e : Event) : bool :=
  match e with
  | Service _ _ Unbound | Service _ _ (Threw _) => true
  | _ => false
  end.

(** A call to one of the slot services was sent. *)
Definition slotCallSent (e : Event) : bool :=
  match e with
  | Service _ (AddRoutineSlot _ _ | UpdateRoutineSlot _ _ _ | DeleteRoutineSlot _ _) o =>
      match o with Unbound => false | _ => true end
  | _ => false
  end.

Definition remoteCalls (t : list Event) : list Event := List.filter isRemoteCall t.
Definition failures (t : list Event) : nat := length (List.filter isFailure t).

(** ** The hook: state, effects and operations *)

Section UseRoutines.

Context {Server : Type}.
Variable serve : ∀ c : RemoteCall, Server → Server * Settled (Returns c).
Context {storage : OfflineStorage}.

(** The React state of the hook ([routines], [loading], [error],
    [syncInProgress]), the connectivity signal it reads, and the
    world it acts on: browser local storage, the offline store, the
    remote service, and the events observed so far. An operation of
    the hook is called through the render that is current: it reads
    [isOffline] and [syncInProgress] as they are when it is called. *)
Record World := mkWorld {
  routines : list Routine;
  loading : bool;
  error : Val;
  syncInProgress : bool;
  isOffline : bool;
  localStorage : gmap string string;
  idb : Store storage;
  remote : Server;
  trace : list Event
}.

#[global] Instance World_eq_dec `{EqDecision Server, EqDecision (Store storage)} :
  EqDecision World.
Proof. solve_decision. Defined.

Definition withRoutines (f : list Routine → list Routine) (w : World) : World :=
  mkWorld (f (routines w)) (loading w) (error w) (syncInProgress w)
    (isOffline w) (localStorage w) (idb w) (remote w) (trace w).
Definition withError (e : Val) (w : World) : World :=
  mkWorld (routines w) (loading w) e (syncInProgress w)
    (isOffline w) (localStorage w) (idb w) (remote w) (trace w).
Definition withSyncInProgress (b : bool) (w : World) : World :=
  mkWorld (routines w) (loading w) (error w) b
    (isOffline w) (localStorage w) (idb w) (remote w) (trace w).
Definition withLocalStorage (k v : string) (w : World) : World :=
  mkWorld (routines w) (loading w) (error w) (syncInProgress w)
    (isOffline w) (<[k := v]> (localStorage w)) (idb w) (remote w) (trace w).
Definition withIdb (s : Store storage) (w : World) : World :=
  mkWorld (routines w) (loading w) (error w) (syncInProgress w)
    (isOffline w) (localStorage w) s (remote w) (trace w).
Definition withRemote (s : Server) (w : World) : World :=
  mkWorld (routines w) (loading w) (error w) (syncInProgress w)
    (isOffline w) (localStorage w) (idb w) s (trace w).
Definition logEvent (e : Event) (w : World) : World :=
  mkWorld (routines w) (loading w) (error w) (syncInProgress w)
    (isOffline w) (localStorage w) (idb w) (remote w) (trace w ++ [e]).

(** An asynchronous computation: it runs on the world and settles. *)
Definition Async (A : Type) : Type := World → World * Settled A.

Definition ret {A} (a : A) : Async A := λ w, (w, Fulfilled a).
Definition throw {A} (e : Exn) : Async A := λ w, (w, Rejected e).
Definition bind {A B} (m : Async A) (k : A → Async B) : Async B := λ w,
  match m w with
  | (w', Fulfilled a) => k a w'
  | (w', Rejected e) => (w', Rejected e)
  end.
Definition tryCatch {A} (m : Async A) (handler : Exn → Async A) : Async A := λ w,
  match m w with
  | (w', Rejected e) => handler e w'
  | settled => settled
  end.
Definition tryFinally {A} (m : Async A) (finalizer : Async unit) : Async A := λ w,
  match m w with
  | (w', r) =>
      match finalizer w' with
      | (w'', Fulfilled _) => (w'', r)
      | (w'', Rejected e) => (w'', Rejected e)
      end
  end.
Definition modify (f : World → World) : Async unit := λ w, (f w, Fulfilled ()).

Notation "'let!' x ':=' m 'in' k" := (bind m (λ x, k))
  (at level 10, x pattern, m at level 100, k at level 200, only parsing).

(** [for (const x of l) body] over loop variables [s]. *)
Fixpoint forOf {A S} (body : A → S → Async S) (l : list A) (s : S) : Async S :=
  match l with
  | [] => ret s
  | x :: l' => let! s' := body x s in forOf body l' s'
  end.

Definition setRoutines (f : list Routine → list Routine) : Async unit :=
  modify (withRoutines f).
Definition setError (e : Val) : Async unit := modify (withError e).
Definition setSyncInProgress (b : bool) : Async unit := modify (withSyncInProgress b).
Definition localStorage_setItem (k v : string) : Async unit :=
  modify (withLocalStorage k v).

(** [await ident(args)]: evaluating an unbound identifier throws
    before anything is sent. *)
Definition invoke (ident : string) (c : RemoteCall) : Async (Returns c) := λ w,
  match moduleScope ident with
  | None => (logEvent (Service ident c Unbound) w, Rejected (ReferenceError ident))
  | Some _ =>
      let '(s, r) := serve c (remote w) in
      (logEvent (Service ident c (outcomeOf r)) (withRemote s w), r)
  end.

Definition getAllFromIndexedDB (storeName : string) : Async (list Routine) := λ w,
  let '(s, r) := readAll storage storeName (idb w) in
  (logEvent (StorageGetAll storeName) (withIdb s w), r).

Definition saveToIndexedDB (storeName : string) (data : StoreData) : Async unit := λ w,
  let '(s, r) := writeData storage storeName data (idb w) in
  (logEvent (StorageSave storeName data) (withIdb s w), r).

(** *** [syncOfflineChanges] (lines 165-168): caching is disabled,
    nothing to synchronise. *)
Definition syncOfflineChanges : Async unit := ret ().

(** *** [syncOfflineChangesEnhanced] (lines 190-414) *)

(** The [let] variables of the pass. *)
Record SyncVars := mkSyncVars {
  syncedRoutines : list Routine;
  hasChanges : bool;
  syncErrors : nat
}.

#[global] Instance SyncVars_eq_dec : EqDecision SyncVars.
Proof. solve_decision. Defined.

(** The variables of the slot loop; [syncErrors] is shared with the
    enclosing loop. *)
Record SlotVars := mkSlotVars {
  syncedSlots : list RoutineSlot;
  slotsChanged : bool;
  slotErrors : nat
}.

Definition pendingSlot (slot : RoutineSlot) : bool :=
  truthy (prop slot "_isOffline")
  || truthy (prop slot "_isOfflineUpdated")
  || truthy (prop slot "_isOfflineDeleted").

(** The test of lines 205-210: the routine is skipped. *)
Definition noOfflineChanges (routine : Routine) : bool :=
  negb (truthy (prop (fields routine) "_isOffline"))
  && negb (truthy (prop (fields routine) "_isOfflineUpdated"))
  && negb (truthy (prop (fields routine) "_isOfflineDeleted"))
  && negb (truthy (prop (fields routine) "_needsActivationSync"))
  && negb (truthy (prop (fields routine) "_needsDeactivationSync"))
  && negb (match slots routine with
           | Some ss => existsb pendingSlot ss
           | None => false
           end).

Definition countError (v : SyncVars) : SyncVars :=
  mkSyncVars (syncedRoutines v) (hasChanges v) (S (syncErrors v)).
Definition countSlotError (v : SlotVars) : SlotVars :=
  mkSlotVars (syncedSlots v) (slotsChanged v) (S (slotErrors v)).

(** [syncedRoutines[i] = f(syncedRoutines[i]); hasChanges = true] when
    a routine with the identifier is found. *)
Definition updateSynced (routine : Routine) (f : Routine → Routine)
    (v : SyncVars) : SyncVars :=
  match findIndex (λ r, rid r = rid routine) (syncedRoutines v) with
  | Some index => mkSyncVars (alter f index (syncedRoutines v)) true (syncErrors v)
  | None => v
  end.

(** Lines 217-228. *)
Definition syncDeletion (routine : Routine) (v : SyncVars) : Async SyncVars :=
  tryCatch
    (let! _ := invoke "deleteRoutineService" (DeleteRoutine (rid routine)) in
     ret (mkSyncVars (filter (λ r, rid r ≠ rid routine) (syncedRoutines v))
            true (syncErrors v)))
    (λ err, ret (countError v)).

(** Lines 231-265. *)
Definition syncActivation (routine : Routine) (v : SyncVars) : Async SyncVars :=
  if truthy (prop (fields routine) "_needsActivationSync") then
    tryCatch
      (let! _ := invoke "activateRoutineService" (ActivateRoutine (rid routine)) in
       ret (updateSynced routine
              (λ cur, withField "_needsActivationSync" VUndef
                        (withField "isActive" (VBool true) cur)) v))
      (λ err, ret (countError v))
  else if truthy (prop (fields routine) "_needsDeactivationSync") then
    tryCatch
      (let! _ := invoke "deactivateRoutineService" (DeactivateRoutine (rid routine)) in
       ret (updateSynced routine
              (λ cur, withField "_needsDeactivationSync" VUndef
                        (withField "isActive" (VBool false) cur)) v))
      (λ err, ret (countError v))
  else ret v.

(** Lines 268-284: [const { _isOffline, id, ...routineData } = routine]. *)
Definition creationData (routine : Routine) : Routine :=
  {| fields := delete "id" (delete "_isOffline" (fields routine));
     slots := slots routine |}.

Definition syncCreation (routine : Routine) (v : SyncVars) : Async SyncVars :=
  tryCatch
    (let! newRoutine := invoke "createRoutineService" (CreateRoutine (creationData routine)) in
     ret (mkSyncVars
            (filter (λ r, rid r ≠ rid routine) (syncedRoutines v) ++ [newRoutine])
            true (syncErrors v)))
    (λ err, ret (countError v)).

(** Lines 287-308: [routineData] is the routine without
    [_isOfflineUpdated], [_isOffline], [_needsActivationSync],
    [_needsDeactivationSync] and [slots]. *)
Definition updateData (routine : Routine) : Routine :=
  {| fields := delete "_needsDeactivationSync" (delete "_needsActivationSync"
                 (delete "_isOffline" (delete "_isOfflineUpdated" (fields routine))));
     slots := None |}.

(** [{ ...cur, ...routineData, _isOfflineUpdated: undefined }] *)
Definition mergeUpdate (routineData cur : Routine) : Routine :=
  {| fields := <["_isOfflineUpdated" := VUndef]> (fields routineData ∪ fields cur);
     slots := slots cur |}.

Definition syncUpdate (routine : Routine) (v : SyncVars) : Async SyncVars :=
  if truthy (prop (fields routine) "_isOfflineUpdated") then
    tryCatch
      (let! _ := invoke "updateRoutineService"
                   (UpdateRoutine (rid routine) (updateData routine)) in
       ret (updateSynced routine (mergeUpdate (updateData routine)) v))
      (λ err, ret (countError v))
  else ret v.

(** One turn of the slot loop, lines 315-381. *)
Definition syncSlot (routine : Routine) (slot : RoutineSlot) (v : SlotVars)
    : Async SlotVars :=
  if negb (pendingSlot slot) then ret v
  else if truthy (prop slot "_isOfflineDeleted") then
    tryCatch
      (let! _ := invoke "deleteRoutineSlotService"
                   (DeleteRoutineSlot (rid routine) (sid slot)) in
       ret (match findIndex (λ s, sid s = sid slot) (syncedSlots v) with
            | Some slotIndex =>
                mkSlotVars (delete slotIndex (syncedSlots v)) true (slotErrors v)
            | None => v
            end))
      (λ err, ret (countSlotError v))
  else if truthy (prop slot "_isOffline") then
    tryCatch
      (let slotData := delete "createdAt" (delete "routineId"
                         (delete "id" (delete "_isOffline" slot))) in
       let! newSlot := invoke "addRoutineSlotService"
                         (AddRoutineSlot (rid routine) slotData) in
       ret (match findIndex (λ s, sid s = sid slot) (syncedSlots v) with
            | Some slotIndex =>
                mkSlotVars (<[slotIndex := newSlot]> (syncedSlots v)) true (slotErrors v)
            | None => v
            end))
      (λ err, ret (countSlotError v))
  else if truthy (prop slot "_isOfflineUpdated") then
    tryCatch
      (let slotData := delete "_isOffline" (delete "_isOfflineUpdated" slot) in
       let! _ := invoke "updateRoutineSlotService"
                   (UpdateRoutineSlot (rid routine) (sid slot) slotData) in
       ret (match findIndex (λ s, sid s = sid slot) (syncedSlots v) with
            | Some slotIndex =>
                mkSlotVars
                  (<[slotIndex := <["_isOfflineUpdated" := VUndef]>
                                    (<["routineId" := rid routine]>
                                       (<["id" := sid slot]> slotData))]>
                     (syncedSlots v))
                  true (slotErrors v)
            | None => v
            end))
      (λ err, ret (countSlotError v))
  else ret v.

(** Lines 311-394. *)
Definition syncSlots (routine : Routine) (v : SyncVars) : Async SyncVars :=
  match slots routine with
  | Some routineSlots =>
      if (0 <? length routineSlots)%nat then
        let! sv := forOf (syncSlot routine) routineSlots
                     (mkSlotVars routineSlots false (syncErrors v)) in
        let v' := mkSyncVars (syncedRoutines v) (hasChanges v) (slotErrors sv) in
        ret (if slotsChanged sv
             then updateSynced routine (withSlots (Some (syncedSlots sv))) v'
             else v')
      else ret v
  | None => ret v
  end.

(** One turn of the routine loop, lines 203-395. *)
Definition syncRoutine (routine : Routine) (v : SyncVars) : Async SyncVars :=
  if noOfflineChanges routine then ret v
  else if truthy (prop (fields routine) "_isOfflineDeleted") then
    syncDeletion routine v
  else
    let! v := syncActivation routine v in
    if truthy (prop (fields routine) "_isOffline") then
      syncCreation routine v
    else
      let! v := syncUpdate routine v in
      syncSlots routine v.

(** The loop and what follows it, lines 197-406. *)
Definition syncPass (now : N) : Async unit :=
  let! offlineRoutines := getAllFromIndexedDB STORES_ROUTINES in
  let! v := forOf syncRoutine offlineRoutines
              (mkSyncVars offlineRoutines false 0) in
  if hasChanges v then
    let! _ := saveToIndexedDB STORES_ROUTINES (Records (syncedRoutines v)) in
    let! _ := setRoutines (λ _, syncedRoutines v) in
    localStorage_setItem CACHE_TIMESTAMP_KEY (pretty now)
  else ret ().

(** [now] is the value of [Date.now()] at line 402. *)
Definition syncOfflineChangesEnhanced (now : N) : Async unit := λ w,
  if isOffline w || syncInProgress w then ret () w
  else
    tryFinally
      (tryCatch
         (let! _ := setSyncInProgress true in syncPass now)
         (λ err, setError (VStr "Failed to sync offline changes")))
      (setSyncInProgress false) w.

(** *** [handleCreateRoutine] (lines 93-107) *)
Definition handleCreateRoutine (routine : Routine) : Async Routine := λ w,
  if isOffline w then
    throw (Error "Cannot create routines while offline. Please connect to the internet and try again.") w
  else
    tryCatch
      (let! createdRoutine := invoke "createRoutineService" (CreateRoutine routine) in
       let! _ := setRoutines (λ prev, prev ++ [createdRoutine]) in
       ret createdRoutine)
      (λ err, throw err) w.

(** *** [addRoutineSlot] (lines 416-501)

    [now], [random] and [isoNow] are the values of [Date.now()], of
    [Math.random().toString(36).substring(2, 9)] and of
    [new Date().toISOString()]. *)
Definition appendSlot (newSlot : RoutineSlot) (r : Routine) : Routine :=
  withSlots (Some (default [] (slots r) ++ [newSlot])) r.

Definition addRoutineSlot (now : N) (random isoNow : string)
    (routineId : string) (slot : RoutineSlot) : Async RoutineSlot := λ w,
  tryCatch
    (let! _ := setError VNull in
     if isOffline w then
       let tempId := "temp-slot-" +:+ pretty now +:+ "-" +:+ random in
       let newSlot :=
         <["_isOffline" := VBool true]>
           (<["createdAt" := VStr isoNow]>
              (<["routineId" := VStr routineId]>
                 (<["id" := VStr tempId]> slot))) in
       let! updatedRoutines := getAllFromIndexedDB STORES_ROUTINES in
       match findIndex (λ r, rid r = VStr routineId) updatedRoutines with
       | Some routineIndex =>
           let! _ := saveToIndexedDB STORES_ROUTINES
                       (Records (alter (appendSlot newSlot) routineIndex updatedRoutines)) in
           let! _ := setRoutines
                       (fmap (λ r, if decide (rid r = VStr routineId)
                                   then appendSlot newSlot r else r)) in
           ret newSlot
       | None => throw (Error "Routine not found")
       end
     else
       let! newSlot := invoke "addRoutineSlotService"
                         (AddRoutineSlot (VStr routineId) slot) in
       let! _ := setRoutines
                   (fmap (λ r, if decide (rid r = VStr routineId)
                               then appendSlot newSlot r else r)) in
       let! _ := tryCatch
                   (let! existingRoutines := getAllFromIndexedDB STORES_ROUTINES in
                    match list_find (λ r, rid r = VStr routineId) existingRoutines with
                    | Some (_, routineToUpdate) =>
                        saveToIndexedDB STORES_ROUTINES
                          (OneRecord (appendSlot newSlot routineToUpdate))
                    | None => ret ()
                    end)
                   (λ dbErr, ret ()) in
       ret newSlot)
    (λ err, let! _ := setError (message err) in throw err) w.

(** *** [deleteRoutineSlot] (lines 583-661) *)

(** Lines 597-601: the slot is marked, and removed at once when it
    was created offline. *)
Definition markSlotDeleted (slotId : string) (ss : list RoutineSlot)
    : list RoutineSlot :=
  filter (λ slot, ¬ (sid slot = VStr slotId ∧ truthy (prop slot "_isOffline") = true))
    ((λ slot, if decide (sid slot = VStr slotId)
              then <["_isOfflineDeleted" := VBool true]> slot else slot) <$> ss).

Definition dropSlot (routineId slotId : string) (routine : Routine) : Routine :=
  if decide (rid routine = VStr routineId)
  then withSlots (filter (λ slot, sid slot ≠ VStr slotId) <$> slots routine) routine
  else routine.

Definition deleteRoutineSlot (routineId slotId : string) : Async unit := λ w,
  tryCatch
    (let! _ := setError VNull in
     if isOffline w then
       let! existingRoutines := getAllFromIndexedDB STORES_ROUTINES in
       let! _ :=
         match findIndex (λ r, rid r = VStr routineId) existingRoutines with
         | Some routineIndex =>
             saveToIndexedDB STORES_ROUTINES
               (Records (alter (λ routine,
                                  withSlots (markSlotDeleted slotId <$> slots routine) routine)
                           routineIndex existingRoutines))
         | None => ret ()
         end in
       setRoutines (fmap (dropSlot routineId slotId))
     else
       let! _ := invoke "deleteRoutineSlotService"
                   (DeleteRoutineSlot (VStr routineId) (VStr slotId)) in
       let! _ := setRoutines (fmap (dropSlot routineId slotId)) in
       tryCatch
         (let! existingRoutines := getAllFromIndexedDB STORES_ROUTINES in
          match findIndex (λ r, rid r = VStr routineId) existingRoutines with
          | Some routineIndex =>
              saveToIndexedDB STORES_ROUTINES
                (Records (alter (λ routine,
                                   withSlots (filter (λ slot, sid slot ≠ VStr slotId)
                                                <$> slots routine) routine)
                            routineIndex existingRoutines))
          | None => ret ()
          end)
         (λ dbErr, ret ()))
    (λ err, let! _ := setError (message err) in throw err) w.

(** *** [activateRoutine] (lines 742-790) and [deactivateRoutine]
    (lines 791-839) *)

Definition markActive (routineId : string) (routine : Routine) : Routine :=
  withField "isActive" (VBool (bool_decide (rid routine = VStr routineId))) routine.

Definition markActivationPending (routineId : string) (routine : Routine) : Routine :=
  withField "_needsActivationSync"
    (if decide (rid routine = VStr routineId) then VBool true else VUndef)
    (markActive routineId routine).

Definition activateRoutine (routineId : string) : Async unit := λ w,
  tryCatch
    (let! _ := setError VNull in
     if isOffline w then
       let! _ := setRoutines (fmap (markActivationPending routineId)) in
       let! existingRoutines := getAllFromIndexedDB STORES_ROUTINES in
       saveToIndexedDB STORES_ROUTINES
         (Records (markActivationPending routineId <$> existingRoutines))
     else
       let! _ := invoke "activateRoutineService" (ActivateRoutine (VStr routineId)) in
       let! _ := setRoutines (fmap (markActive routineId)) in
       let! existingRoutines := getAllFromIndexedDB STORES_ROUTINES in
       saveToIndexedDB STORES_ROUTINES
         (Records (markActive routineId <$> existingRoutines)))
    (λ err, let! _ := setError (message err) in throw err) w.

Definition markInactive (routineId : string) (routine : Routine) : Routine :=
  withField "isActive"
    (if decide (rid routine = VStr routineId) then VBool false
     else prop (fields routine) "isActive") routine.

Definition markDeactivationPending (routineId : string) (routine : Routine) : Routine :=
  withField "_needsDeactivationSync"
    (if decide (rid routine = VStr routineId) then VBool true else VUndef)
    (markInactive routineId routine).

Definition deactivateRoutine (routineId : string) : Async unit := λ w,
  tryCatch
    (let! _ := setError VNull in
     if isOffline w then
       let! _ := setRoutines (fmap (markDeactivationPending routineId)) in
       let! existingRoutines := getAllFromIndexedDB STORES_ROUTINES in
       saveToIndexedDB STORES_ROUTINES
         (Records (markDeactivationPending routineId <$> existingRoutines))
     else
       let! _ := invoke "deactivateRoutineService" (DeactivateRoutine (VStr routineId)) in
       let! _ := setRoutines (fmap (markInactive routineId)) in
       let! existingRoutines := getAllFromIndexedDB STORES_ROUTINES in
       saveToIndexedDB STORES_ROUTINES
         (Records (markInactive routineId <$> existingRoutines)))
    (λ err, let! _ := setError (message err) in throw err) w.

(** *** Vocabulary of the properties *)

(** The world after [evs] more events. *)
Definition logEvents (evs : list Event) (w : World) : World :=
  mkWorld (routines w) (loading w) (error w) (syncInProgress w)
    (isOffline w) (localStorage w) (idb w) (remote w) (trace w ++ evs).

(** [w'] differs from [w] by the state of the remote service and by
    the events [evs]. *)
Definition advances (w : World) (evs : list Event) (w' : World) : Prop :=
  w' = logEvents evs (withRemote (remote w') w).

(** The event a turn of the slot loop leaves for a slot: the three
    slot services are not bound in the hook (see
    [slot_services_unbound]), so the call is never sent. *)
Definition slotAttempt (routine : Routine) (slot : RoutineSlot) : option Event :=
  if negb (pendingSlot slot) then None
  else if truthy (prop slot "_isOfflineDeleted") then
    Some (Service "deleteRoutineSlotService"
            (DeleteRoutineSlot (rid routine) (sid slot)) Unbound)
  else if truthy (prop slot "_isOffline") then
    Some (Service "addRoutineSlotService"
            (AddRoutineSlot (rid routine)
               (delete "createdAt" (delete "routineId"
                  (delete "id" (delete "_isOffline" slot))))) Unbound)
  else
    Some (Service "updateRoutineSlotService"
            (UpdateRoutineSlot (rid routine) (sid slot)
               (delete "_isOffline" (delete "_isOfflineUpdated" slot))) Unbound).

Definition slotEvents (routine : Routine) : list Event :=
  omap (slotAttempt routine) (default [] (slots routine)).

(** The events that [w'] has seen since [w]. *)
Definition eventsSince (w w' : World) : list Event :=
  drop (length (trace w)) (trace w').

(** What every stage and every turn of the routine loop guarantees:
    it resolves, it only talks to the remote service, it adds to
    [syncErrors] the number of calls that threw, and its events
    satisfy [Q]. *)
Definition settles (Q : Event → Prop) (m : Async SyncVars) (v : SyncVars) (w : World)
    : Prop :=
  ∃ w' v' evs, m w = (w', Fulfilled v') ∧ advances w evs w'
               ∧ syncErrors v' = syncErrors v + failures evs
               ∧ Forall Q evs.

(** What the rest of the application can observe of a world: the hook
    state, local storage, the offline store, the remote service and
    the calls sent to it. *)
Definition observable (w : World) :=
  (routines w, loading w, error w, syncInProgress w, isOffline w,
   localStorage w, idb w, remote w, remoteCalls (trace w)).

End UseRoutines.

(** *** Outcomes of a turn of the routine loop

    The relations below say what a stage, a turn and the whole loop
    can do to the working copy [syncedRoutines], and which events
    they leave; [syncRoutine_turn] and [forOf_syncRoutine_outcome]
    prove that the code does one of these. *)







(** The routines that the service returned for the creations among
    the events. *)
Definition createdRoutine (e : Event) : option Routine :=
  match e with
  | Service _ _ (ReturnedRoutine r) => Some r
  | _ => None
  end.






(** The value of a resolved promise, [d] for a rejected one. *)
Definition settledValue {A} (d : A) (s : Settled A) : A :=
  match s with
  | Fulfilled a => a
  | Rejected _ => d
  end.

(** *** Sample data *)

Definition obj (l : list (string * Val)) : Obj := list_to_map l.

(** An online, idle hook over the working store holding [stored]. *)
Definition onlineWorld {Server} (s : Server) (stored : list Routine)
    : @World Server collectionStorage :=
  @mkWorld Server collectionStorage stored false VNull false false ∅ stored s [].

(** An offline, idle hook over the working store holding [stored]. *)
Definition offlineWorld {Server} (s : Server) (stored : list Routine)
    : @World Server collectionStorage :=
  @mkWorld Server collectionStorage stored false VNull false true ∅ stored s [].


(** A service that accepts every call; a creation returns the
    payload under an identifier of its own. *)
Definition accepting (c : RemoteCall) (n : nat) : nat * Settled (Returns c) :=
  match c with
  | CreateRoutine d => (S n, Fulfilled (withField "id" (VStr ("r-" +:+ pretty n)) d))
  | AddRoutineSlot _ d => (S n, Fulfilled (<["id" := VStr ("s-" +:+ pretty n)]> d))
  | _ => (n, Fulfilled ())
  end.

(** [{id:"r-1", name:"Morning"}] *)
Definition plainRoutine : Routine :=
  {| fields := obj [("id", VStr "r-1"); ("name", VStr "Morning")]; slots := None |}.

(** A service that rejects the calls picked by [refused] and accepts
    the others. *)
Definition refusing (refused : RemoteCall → bool) (c : RemoteCall) (n : nat)
    : nat * Settled (Returns c) :=
  if refused c then (n, Rejected (Error "network error")) else accepting c n.


Definition isDeletion (c : RemoteCall) : bool :=
  match c with DeleteRoutine _ => true | _ => false end.

(** Stored routines, one for each routine-level marker. *)
Definition updatedRoutine : Routine :=
  {| fields := obj [("id", VStr "r-2"); ("_isOfflineUpdated", VBool true);
                    ("title", VStr "Physics")]; slots := None |}.

Definition temporaryRoutine : Routine :=
  {| fields := obj [("id", VStr "temp-1"); ("_isOffline", VBool true);
                    ("title", VStr "Algebra")]; slots := None |}.

Definition deletedRoutine : Routine :=
  {| fields := obj [("id", VStr "r-7"); ("_isOfflineDeleted", VBool true);
                    ("title", VStr "Physics")]; slots := None |}.

Definition activatedRoutine : Routine :=
  {| fields := obj [("id", VStr "r-4"); ("_needsActivationSync", VBool true)];
     slots := Some [obj [("id", VStr "s-1"); ("day", VStr "Mon")]] |}.

Definition pendingRoutines : list Routine :=
  [updatedRoutine; temporaryRoutine; deletedRoutine; activatedRoutine].

(** [{id:"r-42", title:"Algebra"}] *)
Definition serverRoutine : Routine :=
  {| fields := obj [("id", VStr "r-42"); ("title", VStr "Algebra")]; slots := None |}.



(** ** The other operations of the hook

    The operations of [useRoutines] that the reconciliation pass does
    not call: the routine-level mutations, which bypass the offline
    store, the slot update, and the operations that read the remote
    service. *)

(** [{ ...routine, ...updates }]: a property that [updates] has
    replaces the one of [routine]. An [updates] whose [slots] is
    [None] does not mention the property. *)
Definition spread (routine updates : Routine) : Routine :=
  {| fields := fields updates ∪ fields routine;
     slots := match slots updates with
              | Some ss => Some ss
              | None => slots routine
              end |}.

(** Lines 516-520: [{ ...slot, ...updates, _isOfflineUpdated: true }]
    for the slots of that identifier. *)
Definition markSlotUpdated (slotId : string) (updates slot : RoutineSlot) : RoutineSlot :=
  if decide (sid slot = VStr slotId)
  then <["_isOfflineUpdated" := VBool true]> (updates ∪ slot)
  else slot.

(** Lines 531-533: [{ ...slot, ...updates }] for the slots of that
    identifier. *)
Definition applySlotUpdates (slotId : string) (updates slot : RoutineSlot) : RoutineSlot :=
  if decide (sid slot = VStr slotId) then updates ∪ slot else slot.

(** [{ ...r, slots: r.slots?.map(f) }] for the routines of that
    identifier. *)
Definition mapSlots (routineId : string) (f : RoutineSlot → RoutineSlot) (r : Routine)
    : Routine :=
  if decide (rid r = VStr routineId) then withSlots (fmap (M:=list) f <$> slots r) r else r.

(** [a || b] *)
Definition orElse (a b : Val) : Val := if truthy a then a else b.

(** What is thrown when a property of [null] or of [undefined] is
    read: a [TypeError], an error object whose message is the
    engine's. *)
Definition TypeError (v : string) : Exn :=
  Error ("Cannot read properties of " +:+ v +:+ " (reading 'message')").

(** *** Requests that the pass does not replay

    [fetchRoutines], [bulkImportRoutineSlots], [exportRoutineWithSlots],
    [getAllSemesters] and [getRoutinesBySemester] of
    [services/routine.service]. The module is not part of the sources
    at hand; what an export and a semester are is left open. *)
Inductive Query :=
| FetchRoutines
| BulkImportRoutineSlots (routineId : Val) (slotsData : list Obj)
| ExportRoutineWithSlots (routineId : Val)
| GetAllSemesters
| GetRoutinesBySemester (semester : Val).

(** [{ success: number; errors: any[] }] *)
Record ImportResult := mkImportResult {
  success : Z;
  errors : list Obj
}.

Definition Answers (ExportData Semester : Type) (q : Query) : Type :=
  match q with
  | FetchRoutines => list Routine
  | BulkImportRoutineSlots _ _ => ImportResult
  | ExportRoutineWithSlots _ => ExportData
  | GetAllSemesters => list Semester
  | GetRoutinesBySemester _ => list Routine
  end.

(** *** Vocabulary of the properties *)

(** The call that the hook evaluated, sent or not. *)
Definition attempt (e : Event) : option (string * RemoteCall) :=
  match e with
  | Service ident c _ => Some (ident, c)
  | _ => None
  end.

Definition attempts (evs : list Event) : list (string * RemoteCall) := omap attempt evs.

(** The calls that a turn of the routine loop evaluates for a stored
    routine, in order. *)
Definition plannedCalls (r : Routine) : list (string * RemoteCall) :=
  if noOfflineChanges r then []
  else if truthy (prop (fields r) "_isOfflineDeleted") then
    [("deleteRoutineService", DeleteRoutine (rid r))]
  else
    (if truthy (prop (fields r) "_needsActivationSync") then
       [("activateRoutineService", ActivateRoutine (rid r))]
     else if truthy (prop (fields r) "_needsDeactivationSync") then
       [("deactivateRoutineService", DeactivateRoutine (rid r))]
     else [])
    ++ (if truthy (prop (fields r) "_isOffline") then
          [("createRoutineService", CreateRoutine (creationData r))]
        else
          (if truthy (prop (fields r) "_isOfflineUpdated") then
             [("updateRoutineService", UpdateRoutine (rid r) (updateData r))]
           else [])
          ++ attempts (slotEvents r)).

(** A service call that resolved. *)
Definition succeeded (e : Event) : bool :=
  match e with
  | Service _ _ (Returned | ReturnedRoutine _ | ReturnedSlot _) => true
  | _ => false
  end.

(** An access to the offline store. *)
Definition storageAccess (e : Event) : bool :=
  match e with
  | StorageGetAll _ | StorageSave _ _ => true
  | _ => false
  end.

(** [routine.isActive] is truthy. *)
Definition active (r : Routine) : bool := truthy (prop (fields r) "isActive").

Section Operations.

Context {Server : Type}.
Variable serve : ∀ c : RemoteCall, Server → Server * Settled (Returns c).
Context {ExportData Semester : Type}.
Variable answer : ∀ q : Query, Server → Server * Settled (Answers ExportData Semester q).
Context {storage : OfflineStorage}.

Local Abbreviation Hook := (@World Server storage).
Local Abbreviation Op := (@Async Server storage).

Notation "'let!' x ':=' m 'in' k" := (bind m (λ x, k))
  (at level 10, x pattern, m at level 100, k at level 200, only parsing).

Definition withLoading (b : bool) (w : Hook) : Hook :=
  mkWorld (routines w) b (error w) (syncInProgress w)
    (isOffline w) (localStorage w) (idb w) (remote w) (trace w).

Definition setLoading (b : bool) : Op unit := modify (withLoading b).

(** [err.message] in a [catch] clause: [null] and [undefined] have no
    properties, reading one throws. *)
Definition readMessage (err : Exn) : Op Val :=
  match err with
  | Thrown VNull => throw (TypeError "null")
  | Thrown VUndef => throw (TypeError "undefined")
  | _ => ret (message err)
  end.

(** [await ident(args)] for a request. The events record the calls
    that a pass replays and the accesses to the offline store; a
    request shows in the state of the remote service. *)
Definition request (ident : string) (q : Query) : Op (Answers ExportData Semester q) := λ w,
  match moduleScope ident with
  | None => (w, Rejected (ReferenceError ident))
  | Some _ => let '(s, r) := answer q (remote w) in (withRemote s w, r)
  end.

(** *** [loadRoutines] (lines 32-56) *)
Definition loadRoutines : Op unit := λ w,
  tryFinally
    (tryCatch
       (let! _ := setLoading true in
        let! _ := setError VNull in
        if isOffline w then
          let! _ := setRoutines (λ _, []) in
          setError (VStr "Offline mode: Cannot fetch routines while offline.")
        else
          let! data := request "fetchRoutines" FetchRoutines in
          setRoutines (λ _, data))
       (λ err, let! m := readMessage err in
               setError (orElse m (VStr "Failed to load routines"))))
    (setLoading false) w.

(** *** [handleUpdateRoutine] (lines 110-134)

    [routines.find] at line 124 reads the collection of the render
    through which the operation was called, not the one that
    [setRoutines] has just scheduled. *)
Definition handleUpdateRoutine (routineId : string) (updates : Routine) : Op Routine := λ w,
  if isOffline w then
    throw (Error "Cannot update routines while offline. Please connect to the internet and try again.") w
  else
    tryCatch
      (let! _ := invoke serve "updateRoutineService"
                   (UpdateRoutine (VStr routineId) updates) in
       let! _ := setRoutines
                   (fmap (λ routine, if decide (rid routine = VStr routineId)
                                     then spread routine updates else routine)) in
       match list_find (λ r, rid r = VStr routineId) (routines w) with
       | Some (_, updatedRoutine) => ret (spread updatedRoutine updates)
       | None => throw (Error "Routine not found after update")
       end)
      (λ err, throw err) w.

(** *** [handleDeleteRoutine] (lines 137-153) *)
Definition handleDeleteRoutine (routineId : string) : Op bool := λ w,
  if isOffline w then
    throw (Error "Cannot delete routines while offline. Please connect to the internet and try again.") w
  else
    tryCatch
      (let! _ := invoke serve "deleteRoutineService" (DeleteRoutine (VStr routineId)) in
       let! _ := setRoutines (filter (λ routine, rid routine ≠ VStr routineId)) in
       ret true)
      (λ err, throw err) w.

(** *** [refreshRoutines] (lines 156-162) *)
Definition refreshRoutines : Op unit := λ w,
  if isOffline w then
    throw (Thrown (VStr "Cannot refresh routines while offline")) w
  else loadRoutines w.

(** *** [updateRoutineSlot] (lines 503-581) *)
Definition updateRoutineSlot (routineId slotId : string) (updates : RoutineSlot)
    : Op unit := λ w,
  tryCatch
    (let! _ := setError VNull in
     if isOffline w then
       let! existingRoutines := getAllFromIndexedDB STORES_ROUTINES in
       match findIndex (λ r, rid r = VStr routineId) existingRoutines with
       | Some routineIndex =>
           let! _ := saveToIndexedDB STORES_ROUTINES
                       (Records (alter (λ routine,
                                          withSlots (fmap (M:=list) (markSlotUpdated slotId updates)
                                                       <$> slots routine) routine)
                                   routineIndex existingRoutines)) in
           setRoutines (fmap (mapSlots routineId (applySlotUpdates slotId updates)))
       | None => ret ()
       end
     else
       let! _ := invoke serve "updateRoutineSlotService"
                   (UpdateRoutineSlot (VStr routineId) (VStr slotId) updates) in
       let! _ := setRoutines (fmap (mapSlots routineId (applySlotUpdates slotId updates))) in
       tryCatch
         (let! existingRoutines := getAllFromIndexedDB STORES_ROUTINES in
          match findIndex (λ r, rid r = VStr routineId) existingRoutines with
          | Some routineIndex =>
              saveToIndexedDB STORES_ROUTINES
                (Records (alter (λ routine,
                                   withSlots (fmap (M:=list) (applySlotUpdates slotId updates)
                                                <$> slots routine) routine)
                            routineIndex existingRoutines))
          | None => ret ()
          end)
         (λ dbErr, ret ()))
    (λ err, let! m := readMessage err in
            let! _ := setError m in
            throw err) w.

(** *** [bulkImportSlots] (lines 666-689) *)
Definition bulkImportSlots (routineId : string) (slotsData : list Obj)
    : Op ImportResult := λ w,
  if isOffline w then
    ret (mkImportResult 0
           [{["message" := VStr "Bulk import is not available in offline mode"]}]) w
  else
    tryCatch
      (let! result := request "bulkImportRoutineSlotsService"
                        (BulkImportRoutineSlots (VStr routineId) slotsData) in
       let! _ := loadRoutines in
       ret result)
      (λ error,
         let! m := readMessage error in
         ret (mkImportResult 0
                [{["message" := orElse m (VStr "Failed to import slots")]}])) w.

(** *** [exportRoutine] (lines 692-703) *)
Definition exportRoutine (routineId : string) : Op ExportData :=
  tryFinally
    (tryCatch
       (let! _ := setLoading true in
        request "exportRoutineWithSlotsService" (ExportRoutineWithSlots (VStr routineId)))
       (λ err, let! m := readMessage err in
               let! _ := setError m in
               throw err))
    (setLoading false).

(** *** [getSemesters] (lines 706-713) *)
Definition getSemesters : Op (list Semester) :=
  tryCatch (request "getAllSemestersService" GetAllSemesters) (λ err, ret []).

(** *** [getRoutinesBySemester] (lines 716-726) *)
Definition getRoutinesBySemester (semester : string) : Op (list Routine) :=
  tryFinally
    (tryCatch
       (let! _ := setLoading true in
        request "getRoutinesBySemesterService" (GetRoutinesBySemester (VStr semester)))
       (λ err, let! m := readMessage err in
               let! _ := setError m in
               ret []))
    (setLoading false).

(** *** Vocabulary of the properties *)

(** A stage, a turn or the loop resolves, it only talks to the remote
    service, it evaluates the calls [calls] in that order, and when
    none of them resolves it leaves the working copy and [hasChanges]
    as they were. *)
Definition evaluates (calls : list (string * RemoteCall)) (m : Op SyncVars)
    (v : SyncVars) (w : Hook) : Prop :=
  ∃ w' v' evs, m w = (w', Fulfilled v') ∧ advances w evs w'
               ∧ attempts evs = calls
               ∧ Forall (λ e, storageAccess e = false) evs
               ∧ (Forall (λ e, succeeded e = false) evs →
                  syncedRoutines v' = syncedRoutines v ∧ hasChanges v' = hasChanges v).

(** [w'] differs from [w] by accesses to the offline store only: the
    remote service is in the same state and no call was evaluated. *)
Definition staysLocal (w w' : Hook) : Prop :=
  remote w' = remote w
  ∧ ∃ evs, trace w' = trace w ++ evs ∧ Forall (λ e, storageAccess e = true) evs.

(** [w'] differs from [w] by the in-memory collection, the state of
    the remote service and at most one call: the offline store, local
    storage and the [error] and [loading] states are the same. *)
Definition bypassesStorage (w w' : Hook) : Prop :=
  idb w' = idb w ∧ localStorage w' = localStorage w
  ∧ error w' = error w ∧ loading w' = loading w
  ∧ ∃ evs, trace w' = trace w ++ evs ∧ (length evs ≤ 1)%nat
           ∧ Forall (λ e, storageAccess e = false) evs.

End Operations.

(** *** More sample data *)

(** An offline, idle hook over the storage module as shipped. *)
Definition shippedOfflineWorld (stored : list Routine) : @World nat disabledStorage :=
  @mkWorld nat disabledStorage stored false VNull false true ∅ () 0 [].

(** A remote service that answers every request; each request
    advances its state. *)
Definition answering (fetched : list Routine) (q : Query) (n : nat)
    : nat * Settled (Answers unit string q) :=
  match q with
  | FetchRoutines => (S n, Fulfilled fetched)
  | BulkImportRoutineSlots _ slotsData =>
      (S n, Fulfilled (mkImportResult (Z.of_nat (length slotsData)) []))
  | ExportRoutineWithSlots _ => (S n, Fulfilled ())
  | GetAllSemesters => (S n, Fulfilled ["Spring 2024"])
  | GetRoutinesBySemester _ => (S n, Fulfilled fetched)
  end.

(** A remote service that rejects every request with [null]. *)
Definition rejectingNull (q : Query) (n : nat) : nat * Settled (Answers unit string q) :=
  (S n, Rejected (Thrown VNull)).

(** [{id:"r-5", isActive:true,
      slots:[{id:"s-1", day:"Mon"}, {id:"s-2", day:"Tue"}]}] *)
Definition routineWithSlots : Routine :=
  {| fields := obj [("id", VStr "r-5"); ("isActive", VBool true)];
     slots := Some [obj [("id", VStr "s-1"); ("day", VStr "Mon")];
                    obj [("id", VStr "s-2"); ("day", VStr "Tue")]] |}.

(** [{id:"r-6", isActive:true, _needsDeactivationSync:true}] *)
Definition pendingDeactivation : Routine :=
  {| fields := obj [("id", VStr "r-6"); ("isActive", VBool true);
                    ("_needsDeactivationSync", VBool true)];
     slots := None |}.

(** A store that holds the collection and rejects every write; it
    rejects the reads too unless [readable]. *)
Definition failingStorage (readable : bool) : OfflineStorage := {|
  Store := list Routine;
  readAll := λ _ s,
    if readable then (s, Fulfilled s) else (s, Rejected (Error "InvalidStateError"));
  writeData := λ _ _ s, (s, Rejected (Error "QuotaExceededError"))
|}.

#[global] Instance failingStorage_eq_dec readable : EqDecision (Store (failingStorage readable)).
Proof. simpl. apply _. Defined.

(** An online, idle hook over such a store. *)
Definition failingWorld (readable : bool) (stored : list Routine)
    : @World nat (failingStorage readable) :=
  @mkWorld nat (failingStorage readable) stored false VNull false false ∅ stored 0 [].
(** ** Properties *)

Section Reconciler.

Context {Server : Type}.
Variable serve : ∀ c : RemoteCall, Server → Server * Settled (Returns c).

(** *** Name resolution inside the hook *)

Lemma routine_services_bound :
  moduleScope "deleteRoutineService" = Some RoutineService.deleteRoutine
  ∧ moduleScope "activateRoutineService" = Some RoutineService.activateRoutine
  ∧ moduleScope "deactivateRoutineService" = Some RoutineService.deactivateRoutine
  ∧ moduleScope "createRoutineService" = Some RoutineService.createRoutine
  ∧ moduleScope "updateRoutineService" = Some RoutineService.updateRoutine.
Proof. by vm_compute. Qed.

Lemma slot_services_unbound :
  moduleScope "deleteRoutineSlotService" = None
  ∧ moduleScope "addRoutineSlotService" = None
  ∧ moduleScope "updateRoutineSlotService" = None.
Proof. by vm_compute. Qed.

Section AnyStorage.

Context {storage : OfflineStorage}.
Implicit Types (w : @World Server storage) (v : SyncVars) (r : Routine).

Lemma advances_refl w : advances w [] w.
Proof. destruct w; unfold advances, logEvents, withRemote; simpl. by rewrite app_nil_r. Qed.

Lemma advances_trans w1 w2 w3 evs1 evs2 :
  advances w1 evs1 w2 → advances w2 evs2 w3 → advances w1 (evs1 ++ evs2) w3.
Proof.
  unfold advances, logEvents, withRemote. intros -> ->; simpl. by rewrite app_assoc.
Qed.

Lemma advances_trace w evs w' : advances w evs w' → trace w' = trace w ++ evs.
Proof. by intros ->. Qed.

Lemma advances_hook w evs w' :
  advances w evs w' →
  routines w' = routines w ∧ loading w' = loading w ∧ error w' = error w
  ∧ syncInProgress w' = syncInProgress w ∧ isOffline w' = isOffline w
  ∧ localStorage w' = localStorage w ∧ idb w' = idb w.
Proof. by intros ->. Qed.

(** An awaited service call: what it leaves behind. *)
Lemma invoke_bound ident c w :
  is_Some (moduleScope ident) →
  invoke serve ident c w =
    (logEvent (Service ident c (outcomeOf (serve c (remote w)).2))
       (withRemote (serve c (remote w)).1 w),
     (serve c (remote w)).2).
Proof.
  intros [x Hx]. unfold invoke. rewrite Hx. by destruct (serve c (remote w)).
Qed.

Lemma invoke_unbound ident c w :
  moduleScope ident = None →
  invoke serve ident c w =
    (logEvent (Service ident c Unbound) w, Rejected (ReferenceError ident)).
Proof. intros Hx. unfold invoke. by rewrite Hx. Qed.

Lemma eventsSince_app w w' evs :
  trace w' = trace w ++ evs → eventsSince w w' = evs.
Proof. intros H. unfold eventsSince. by rewrite H, drop_app_length. Qed.

(** *** The slot loop *)

Lemma logEvents_nil w : logEvents [] w = w.
Proof. destruct w; unfold logEvents; simpl. by rewrite app_nil_r. Qed.

Lemma logEvents_cons e evs w : logEvents (e :: evs) w = logEvents evs (logEvent e w).
Proof. unfold logEvents, logEvent; simpl. by rewrite <- app_assoc. Qed.

Lemma syncSlot_eq routine slot (sv : SlotVars) w :
  syncSlot serve routine slot sv w =
    match slotAttempt routine slot with
    | Some e => (logEvent e w, Fulfilled (countSlotError sv))
    | None => (w, Fulfilled sv)
    end.
Proof.
  unfold syncSlot, slotAttempt, pendingSlot.
  destruct (truthy (prop slot "_isOfflineDeleted")) eqn:Hd;
    destruct (truthy (prop slot "_isOffline")) eqn:Ho;
    destruct (truthy (prop slot "_isOfflineUpdated")) eqn:Hu; simpl; try done;
    unfold tryCatch, bind; by rewrite invoke_unbound.
Qed.

Lemma forOf_syncSlot routine ss (sv : SlotVars) w :
  forOf (syncSlot serve routine) ss sv w =
    (logEvents (omap (slotAttempt routine) ss) w,
     Fulfilled (mkSlotVars (syncedSlots sv) (slotsChanged sv)
                  (slotErrors sv + length (omap (slotAttempt routine) ss)))).
Proof.
  revert sv w. induction ss as [|slot ss IH]; intros sv w; simpl.
  - rewrite logEvents_nil, Nat.add_0_r. by destruct sv.
  - unfold bind. rewrite syncSlot_eq.
    destruct (slotAttempt routine slot) as [e|]; simpl.
    + rewrite IH, logEvents_cons. simpl. by rewrite Nat.add_succ_r.
    + apply IH.
Qed.

Lemma syncSlots_eq routine v w :
  syncSlots serve routine v w =
    (logEvents (slotEvents routine) w,
     Fulfilled (mkSyncVars (syncedRoutines v) (hasChanges v)
                  (syncErrors v + length (slotEvents routine)))).
Proof.
  unfold syncSlots, slotEvents.
  destruct (slots routine) as [[|slot ss]|]; simpl;
    try (rewrite logEvents_nil, Nat.add_0_r; by destruct v).
  unfold bind. rewrite syncSlot_eq.
  destruct (slotAttempt routine slot) as [e|]; simpl;
    rewrite forOf_syncSlot; simpl; unfold ret; rewrite ?logEvents_cons;
    by rewrite ?Nat.add_succ_r.
Qed.

Lemma slotAttempt_unbound routine slot e :
  slotAttempt routine slot = Some e → ∃ ident c, e = Service ident c Unbound.
Proof. unfold slotAttempt. repeat case_match; intros [= <-]; eauto. Qed.

Lemma slotEvents_unbound routine :
  Forall (λ e, ∃ ident c, e = Service ident c Unbound) (slotEvents routine).
Proof.
  unfold slotEvents. induction (default [] (slots routine)) as [|slot ss IH]; simpl.
  - constructor.
  - destruct (slotAttempt routine slot) as [e|] eqn:He; [|done].
    constructor; [|done]. by eapply slotAttempt_unbound.
Qed.

Lemma unbound_failures evs :
  Forall (λ e, ∃ ident c, e = Service ident c Unbound) evs →
  failures evs = length evs ∧ remoteCalls evs = [].
Proof.
  unfold failures, remoteCalls. induction 1 as [|e evs (ident & c & ->) _ [IH1 IH2]]; simpl.
  - done.
  - by rewrite IH1, IH2.
Qed.

Lemma slotEvents_failures routine :
  failures (slotEvents routine) = length (slotEvents routine).
Proof. apply unbound_failures, slotEvents_unbound. Qed.

(** *** The routine loop always settles, and counts what failed *)

Lemma advances_logEvent e s w : advances w [e] (logEvent e (withRemote s w)).
Proof. done. Qed.

Lemma advances_logEvents evs w : advances w evs (logEvents evs w).
Proof. by destruct w. Qed.

Lemma failures_app evs1 evs2 : failures (evs1 ++ evs2) = failures evs1 + failures evs2.
Proof. unfold failures. by rewrite List.filter_app, length_app. Qed.

Lemma remoteCalls_app evs1 evs2 :
  remoteCalls (evs1 ++ evs2) = remoteCalls evs1 ++ remoteCalls evs2.
Proof. apply List.filter_app. Qed.

Lemma settles_ret Q v w : settles Q (ret v) v w.
Proof.
  exists w, v, []. split; [done|]. split; [apply advances_refl|].
  split; [unfold failures; simpl; lia|constructor].
Qed.

Lemma settles_bind Q m k v w :
  settles Q m v w → (∀ v' w', settles Q (k v') v' w') → settles Q (bind m k) v w.
Proof.
  intros (w1 & v1 & evs1 & Hm & Ha1 & He1 & HQ1) Hk.
  destruct (Hk v1 w1) as (w2 & v2 & evs2 & Hk2 & Ha2 & He2 & HQ2).
  exists w2, v2, (evs1 ++ evs2). unfold bind. rewrite Hm. split; [done|].
  split; [by eapply advances_trans|]. rewrite failures_app.
  split; [lia|by apply Forall_app].
Qed.

(** A guarded service call: the success continuation keeps the error
    count, the handler adds one. *)
Lemma settles_attempt Q ident c (k : Returns c → SyncVars) v w :
  is_Some (moduleScope ident) →
  (∀ a, syncErrors (k a) = syncErrors v) →
  (∀ o, Q (Service ident c o)) →
  settles Q (tryCatch (bind (invoke serve ident c) (λ a, ret (k a)))
               (λ _, ret (countError v))) v w.
Proof.
  intros Hb Hk HQ. unfold settles, tryCatch, bind. rewrite invoke_bound by done.
  destruct (serve c (remote w)) as [s [a|e]] eqn:Hs; simpl.
  - eexists _, _, _. split; [done|]. split; [apply advances_logEvent|].
    split; [|by repeat constructor].
    rewrite Hk. destruct c; unfold failures; simpl; lia.
  - eexists _, _, _. split; [done|]. split; [apply advances_logEvent|].
    split; [|by repeat constructor].
    destruct c; unfold failures; simpl; lia.
Qed.

Lemma updateSynced_errors r f v : syncErrors (updateSynced r f v) = syncErrors v.
Proof. unfold updateSynced. by case_match. Qed.

Lemma syncRoutine_settles r v w :
  settles (λ e, slotCallSent e = false) (syncRoutine serve r v) v w.
Proof.
  unfold syncRoutine.
  destruct (noOfflineChanges r); [apply settles_ret|].
  destruct (truthy (prop (fields r) "_isOfflineDeleted")).
  { apply settles_attempt; [by eexists; vm_compute|done|done]. }
  apply settles_bind.
  { unfold syncActivation. repeat case_match; try apply settles_ret;
      (apply settles_attempt;
       [by eexists; vm_compute|intros; apply updateSynced_errors|done]). }
  intros v1 w1. destruct (truthy (prop (fields r) "_isOffline")).
  { apply settles_attempt; [by eexists; vm_compute|done|done]. }
  apply settles_bind.
  { unfold syncUpdate. case_match; try apply settles_ret.
    apply settles_attempt;
      [by eexists; vm_compute|intros; apply updateSynced_errors|done]. }
  intros v2 w2. unfold settles. rewrite syncSlots_eq.
  eexists _, _, _. split; [done|]. split; [apply advances_logEvents|].
  simpl. rewrite slotEvents_failures. split; [done|].
  eapply Forall_impl; [apply slotEvents_unbound|].
  by intros e (ident & c & ->); destruct c.
Qed.

Lemma forOf_syncRoutine_settles l v w :
  settles (λ e, slotCallSent e = false) (forOf (syncRoutine serve) l v) v w.
Proof.
  revert v w. induction l as [|r l IH]; intros v w; simpl.
  - apply settles_ret.
  - apply settles_bind; [apply syncRoutine_settles|done].
Qed.

(** *** One turn of the routine loop, on a working copy in focus *)









Lemma prop_insert_ne (o : Obj) k k' x : k ≠ k' → prop (<[k := x]> o) k' = prop o k'.
Proof. intros H. unfold prop. by rewrite lookup_insert_ne. Qed.

Lemma prop_insert_eq (o : Obj) k x : prop (<[k := x]> o) k = x.
Proof. unfold prop. by rewrite lookup_insert_eq. Qed.



Lemma rid_withField k x r : k ≠ "id" → rid (withField k x r) = rid r.
Proof. intros H. unfold rid, withField; simpl. by apply prop_insert_ne. Qed.











(** *** What the outcomes imply *)








(** *** A turn without a failed call leaves no marker *)










(** *** A turn in which every call failed changes nothing *)






(** *** The trigger *)

Lemma sync_trigger_runs now w :
  isOffline w || syncInProgress w = false →
  ∃ w1, syncOfflineChangesEnhanced serve now w
          = (withSyncInProgress false w1, Fulfilled ())
        ∧ ((∃ u, syncPass serve now (withSyncInProgress true w) = (w1, Fulfilled u))
           ∨ (∃ w0 e, syncPass serve now (withSyncInProgress true w) = (w0, Rejected e)
                      ∧ w1 = withError (VStr "Failed to sync offline changes") w0)).
Proof.
  intros Hg. unfold syncOfflineChangesEnhanced. rewrite Hg.
  unfold tryFinally, tryCatch, bind at 1, setSyncInProgress, setError, modify.
  destruct (syncPass serve now (withSyncInProgress true w)) as [w1 [[]|e]]; simpl.
  - exists w1. split; [done|]. left. by exists ().
  - eexists. split; [done|]. right. by eexists _, _.
Qed.




(** C7: the trigger always resolves, whatever the remote service and
    the offline store answer; the routine loop resolves too and adds
    to its error count the number of service calls that threw; and a
    pass that ran leaves the in-progress flag cleared. *)
Theorem sync_never_rejects now w :
  (∃ w', syncOfflineChangesEnhanced serve now w = (w', Fulfilled ())
         ∧ (isOffline w || syncInProgress w = false → syncInProgress w' = false))
  ∧ ∀ l v w0, settles (λ _, True) (forOf (syncRoutine serve) l v) v w0.
Proof.
  split.
  2:{ intros l v w0.
      destruct (forOf_syncRoutine_settles l v w0) as (w' & v' & evs & H1 & H2 & H3 & _).
      exists w', v', evs. repeat split; try done. by apply Forall_forall. }
  destruct (isOffline w || syncInProgress w) eqn:Hg.
  - exists w. split; [|done]. unfold syncOfflineChangesEnhanced. by rewrite Hg.
  - destruct (sync_trigger_runs now w Hg) as (w1 & -> & _). by eexists.
Qed.

(** *** Activation through the hook *)






End AnyStorage.

(** *** The shipped build: storage disabled *)

(** C2: over the storage module as shipped, the pass and the no-op
    [syncOfflineChanges] resolve alike and leave worlds that cannot be
    told apart; the pass sends no remote call and leaves the
    collection, local storage and the offline store as they were. *)
Theorem disabled_sync_is_noop now (w : @World Server disabledStorage) :
  (syncOfflineChangesEnhanced serve now w).2 = (syncOfflineChanges w).2
  ∧ observable (syncOfflineChangesEnhanced serve now w).1
    = observable (syncOfflineChanges w).1
  ∧ remoteCalls (eventsSince w (syncOfflineChangesEnhanced serve now w).1) = []
  ∧ routines (syncOfflineChangesEnhanced serve now w).1 = routines w
  ∧ localStorage (syncOfflineChangesEnhanced serve now w).1 = localStorage w
  ∧ idb (syncOfflineChangesEnhanced serve now w).1 = idb w.
Proof.
  unfold syncOfflineChangesEnhanced, syncOfflineChanges, eventsSince.
  destruct (isOffline w) eqn:Ho, (syncInProgress w) eqn:Hs; simpl;
    rewrite ?drop_all; try done.
  destruct w; simpl in *. subst. unfold observable; simpl.
  rewrite remoteCalls_app, app_nil_r, drop_app_length. done.
Qed.

(** *** Passes over the working store *)

Section WorkingStore.

Implicit Types (w : @World Server collectionStorage).




Lemma failures_cons_storage_get n evs : failures (StorageGetAll n :: evs) = failures evs.
Proof. done. Qed.











(** *** Creating and deleting while offline *)









End WorkingStore.

(** *** Slot operations during a pass *)


End Reconciler.

(** ** Properties of the pass as a whole and of the other operations *)

Section OperationProperties.

Context {Server : Type}.
Variable serve : ∀ c : RemoteCall, Server → Server * Settled (Returns c).
Context {ExportData Semester : Type}.
Variable answer : ∀ q : Query, Server → Server * Settled (Answers ExportData Semester q).

Section GenericStorage.

Context {storage : OfflineStorage}.
Implicit Types (w : @World Server storage) (v : SyncVars) (r : Routine).

(** *** The calls of a pass are read off the store *)

Lemma attempts_app evs1 evs2 : attempts (evs1 ++ evs2) = attempts evs1 ++ attempts evs2.
Proof. apply omap_app. Qed.

Lemma evaluates_ret v w : evaluates [] (ret v) v w.
Proof.
  exists w, v, []. split; [done|]. split; [apply advances_refl|]. by repeat split.
Qed.

Lemma evaluates_bind c1 c2 (m : Async SyncVars) k v w :
  evaluates c1 m v w → (∀ v1 w1, evaluates c2 (k v1) v1 w1) →
  evaluates (c1 ++ c2) (bind m k) v w.
Proof.
  intros (w1 & v1 & evs1 & Hm & Ha1 & Hc1 & Hs1 & Hf1) Hk.
  destruct (Hk v1 w1) as (w2 & v2 & evs2 & Hk2 & Ha2 & Hc2 & Hs2 & Hf2).
  exists w2, v2, (evs1 ++ evs2). unfold bind. rewrite Hm. split; [done|].
  split; [by eapply advances_trans|]. rewrite attempts_app, Hc1, Hc2.
  split; [done|]. split; [by apply Forall_app|].
  intros [H1 H2]%Forall_app. destruct (Hf1 H1) as [<- <-]. by apply Hf2.
Qed.

(** A guarded service call under a bound name. *)
Lemma evaluates_attempt ident c (k : Returns c → SyncVars) v w :
  is_Some (moduleScope ident) →
  evaluates [(ident, c)]
    (tryCatch (bind (invoke serve ident c) (λ a, ret (k a))) (λ _, ret (countError v))) v w.
Proof.
  intros Hb. unfold evaluates, tryCatch, bind. rewrite invoke_bound by done.
  destruct (serve c (remote w)) as [s [a|e]] eqn:Hs; simpl.
  - eexists _, _, _. split; [done|]. split; [apply advances_logEvent|].
    split; [done|]. split; [by repeat constructor|].
    intros [Hsucc _]%Forall_cons. by destruct c.
  - eexists _, _, _. split; [done|]. split; [apply advances_logEvent|].
    split; [done|]. split; [by repeat constructor|]. done.
Qed.

Lemma slotEvents_service r :
  Forall (λ e, storageAccess e = false ∧ succeeded e = false) (slotEvents r).
Proof.
  eapply Forall_impl; [apply slotEvents_unbound|]. by intros e (ident & c & ->).
Qed.

Lemma syncRoutine_evaluates r v w : evaluates (plannedCalls r) (syncRoutine serve r v) v w.
Proof.
  unfold syncRoutine, plannedCalls.
  destruct (noOfflineChanges r); [apply evaluates_ret|].
  destruct (truthy (prop (fields r) "_isOfflineDeleted")).
  { apply evaluates_attempt. by eexists; vm_compute. }
  apply evaluates_bind.
  { unfold syncActivation. repeat case_match; try apply evaluates_ret;
      apply evaluates_attempt; by eexists; vm_compute. }
  intros v1 w1. destruct (truthy (prop (fields r) "_isOffline")).
  { apply evaluates_attempt. by eexists; vm_compute. }
  apply evaluates_bind.
  { unfold syncUpdate. case_match; try apply evaluates_ret.
    apply evaluates_attempt. by eexists; vm_compute. }
  intros v2 w2. unfold evaluates. rewrite syncSlots_eq.
  eexists _, _, _. split; [done|]. split; [apply advances_logEvents|].
  split; [done|]. split; [|done].
  eapply Forall_impl; [apply slotEvents_service|]. by intros e [? _].
Qed.

Lemma forOf_syncRoutine_evaluates l v w :
  evaluates (l ≫= plannedCalls) (forOf (syncRoutine serve) l v) v w.
Proof.
  revert v w. induction l as [|r l IH]; intros v w; simpl.
  - apply evaluates_ret.
  - apply evaluates_bind; [apply syncRoutine_evaluates|done].
Qed.

(** A pass that reads [stored] from the store. *)
Lemma sync_reads now w s stored :
  isOffline w || syncInProgress w = false →
  readAll storage STORES_ROUTINES (idb w) = (s, Fulfilled stored) →
  let w0 := logEvent (StorageGetAll STORES_ROUTINES) (withIdb s (withSyncInProgress true w)) in
  ∃ w1 v1 evs,
    forOf (syncRoutine serve) stored (mkSyncVars stored false 0) w0 = (w1, Fulfilled v1)
    ∧ advances w0 evs w1
    ∧ attempts evs = stored ≫= plannedCalls
    ∧ Forall (λ e, storageAccess e = false) evs
    ∧ (Forall (λ e, succeeded e = false) evs → hasChanges v1 = false)
    ∧ eventsSince w (syncOfflineChangesEnhanced serve now w).1
      = StorageGetAll STORES_ROUTINES :: evs
          ++ (if hasChanges v1
              then [StorageSave STORES_ROUTINES (Records (syncedRoutines v1))] else [])
    ∧ (hasChanges v1 = false →
       syncOfflineChangesEnhanced serve now w = (withSyncInProgress false w1, Fulfilled ())).
Proof.
  intros Hg Hread w0.
  destruct (forOf_syncRoutine_evaluates stored (mkSyncVars stored false 0) w0)
    as (w1 & v1 & evs & Hloop & Hadv & Hatt & Hsto & Hfail).
  exists w1, v1, evs. do 4 (split; [done|]).
  split; [by intros [_ ?]%Hfail|].
  pose proof (advances_trace _ _ _ Hadv) as Ht. simpl in Ht.
  assert (Hpass : syncPass serve now (withSyncInProgress true w) =
            (if hasChanges v1 then
               bind (saveToIndexedDB STORES_ROUTINES (Records (syncedRoutines v1)))
                 (λ _, bind (setRoutines (λ _, syncedRoutines v1))
                         (λ _, localStorage_setItem CACHE_TIMESTAMP_KEY (pretty now)))
             else ret ()) w1).
  { unfold syncPass, bind at 1, getAllFromIndexedDB. simpl. rewrite Hread.
    unfold bind at 1. fold w0. by rewrite Hloop. }
  assert (Hsync : syncOfflineChangesEnhanced serve now w =
            match syncPass serve now (withSyncInProgress true w) with
            | (w', Fulfilled _) => (withSyncInProgress false w', Fulfilled ())
            | (w', Rejected _) =>
                (withSyncInProgress false
                   (withError (VStr "Failed to sync offline changes") w'), Fulfilled ())
            end).
  { unfold syncOfflineChangesEnhanced. rewrite Hg.
    unfold tryFinally, tryCatch, bind at 1, setSyncInProgress, setError, modify.
    by destruct (syncPass serve now (withSyncInProgress true w)) as [w' [[]|e]]. }
  rewrite Hsync, Hpass. destruct (hasChanges v1).
  - split; [|done].
    unfold bind, saveToIndexedDB, setRoutines, localStorage_setItem, modify.
    destruct (writeData storage _ _ _) as [s2 [[]|e]]; simpl;
      apply eventsSince_app; simpl; rewrite Ht, <- !app_assoc; done.
  - split; [|done]. apply eventsSince_app. simpl. by rewrite Ht, <- !app_assoc, app_nil_r.
Qed.

(** X1: the calls that a pass evaluates, and their order, are read
    off the records that it found in the store, one record after the
    other: they do not depend on what the remote service answers. *)
Theorem pass_attempts_follow_store now w s stored :
  isOffline w || syncInProgress w = false →
  readAll storage STORES_ROUTINES (idb w) = (s, Fulfilled stored) →
  attempts (eventsSince w (syncOfflineChangesEnhanced serve now w).1)
    = stored ≫= plannedCalls
  ∧ ∀ l v w0, ∃ w' v',
      forOf (syncRoutine serve) l v w0 = (w', Fulfilled v')
      ∧ attempts (eventsSince w0 w') = l ≫= plannedCalls.
Proof.
  intros Hg Hread. split.
  - destruct (sync_reads now w s stored Hg Hread)
      as (w1 & v1 & evs & _ & _ & Hatt & _ & _ & -> & _).
    change (StorageGetAll STORES_ROUTINES :: evs ++ ?t)
      with ([StorageGetAll STORES_ROUTINES] ++ evs ++ t).
    rewrite !attempts_app, Hatt. simpl. destruct (hasChanges v1); simpl; by rewrite app_nil_r.
  - intros l v w0.
    destruct (forOf_syncRoutine_evaluates l v w0) as (w' & v' & evs & Hrun & Hadv & Hatt & _).
    exists w', v'. split; [done|].
    by rewrite (eventsSince_app _ _ evs (advances_trace _ _ _ Hadv)).
Qed.

(** X2: a pass in which no call resolved writes nothing: it reads the
    store and leaves the in-memory collection, local storage and the
    [error] state as they were, saves nothing to the store, and
    clears the in-progress flag. *)
Theorem failed_pass_writes_nothing now w s stored :
  isOffline w || syncInProgress w = false →
  readAll storage STORES_ROUTINES (idb w) = (s, Fulfilled stored) →
  let w' := (syncOfflineChangesEnhanced serve now w).1 in
  Forall (λ e, succeeded e = false) (eventsSince w w') →
  routines w' = routines w ∧ localStorage w' = localStorage w ∧ error w' = error w
  ∧ idb w' = s ∧ syncInProgress w' = false
  ∧ failures (eventsSince w w') = length (stored ≫= plannedCalls)
  ∧ ∀ storeName d, StorageSave storeName d ∉ eventsSince w w'.
Proof.
  intros Hg Hread w'. subst w'.
  destruct (sync_reads now w s stored Hg Hread)
    as (w1 & v1 & evs & _ & Hadv & Hatt & Hsto & Hfail & Hev & Hrun).
  rewrite Hev. intros [_ [Hevs _]%Forall_app]%Forall_cons.
  specialize (Hfail Hevs). rewrite Hfail in Hev, Hrun |- *. rewrite Hrun by done.
  apply advances_hook in Hadv as (Hr & _ & He & _ & _ & Hl & Hi). cbn [fst].
  rewrite app_nil_r. repeat split; try done.
  - rewrite failures_cons_storage_get, <- Hatt. clear -Hsto Hevs.
    induction evs as [|e evs IH]; [done|].
    apply Forall_cons in Hsto as [Hs1 Hsto]. apply Forall_cons in Hevs as [Hf1 Hevs].
    specialize (IH Hsto Hevs). unfold failures in *.
    destruct e as [ident c [| | | |]| |]; simpl in *; try done; by rewrite IH.
  - intros storeName d [Hin|Hin]%elem_of_cons; [done|].
    rewrite Forall_forall in Hsto. by apply Hsto in Hin.
Qed.

(** *** When the offline store fails *)

(** X3: when the offline store rejects the read that opens a pass,
    the pass resolves all the same: it sends nothing, sets the
    [error] state to "Failed to sync offline changes" and leaves the
    in-progress flag cleared. *)
Theorem sync_read_failure now w s e :
  isOffline w || syncInProgress w = false →
  readAll storage STORES_ROUTINES (idb w) = (s, Rejected e) →
  syncOfflineChangesEnhanced serve now w =
    (withError (VStr "Failed to sync offline changes")
       (logEvent (StorageGetAll STORES_ROUTINES) (withIdb s w)),
     Fulfilled ()).
Proof.
  intros Hg Hread. unfold syncOfflineChangesEnhanced. rewrite Hg.
  apply orb_false_elim in Hg as [Ho Hs].
  unfold tryFinally, tryCatch, syncPass, getAllFromIndexedDB, setSyncInProgress, setError,
    modify, bind.
  simpl. rewrite Hread. simpl.
  destruct w; simpl in *. by subst.
Qed.

(** X4: when the loop of a pass has changed the working copy and
    the offline store rejects the save, the pass resolves with the
    [error] state set to "Failed to sync offline changes" and the
    in-progress flag cleared; the calls of the loop have been sent,
    but the in-memory collection and local storage are as they were
    before the pass. *)
Theorem sync_save_failure now w s stored w1 v1 s2 e :
  isOffline w || syncInProgress w = false →
  readAll storage STORES_ROUTINES (idb w) = (s, Fulfilled stored) →
  forOf (syncRoutine serve) stored (mkSyncVars stored false 0)
    (logEvent (StorageGetAll STORES_ROUTINES) (withIdb s (withSyncInProgress true w)))
    = (w1, Fulfilled v1) →
  hasChanges v1 = true →
  writeData storage STORES_ROUTINES (Records (syncedRoutines v1)) (idb w1)
    = (s2, Rejected e) →
  syncOfflineChangesEnhanced serve now w =
    (withSyncInProgress false
       (withError (VStr "Failed to sync offline changes")
          (logEvent (StorageSave STORES_ROUTINES (Records (syncedRoutines v1)))
             (withIdb s2 w1))),
     Fulfilled ())
  ∧ routines (syncOfflineChangesEnhanced serve now w).1 = routines w
  ∧ localStorage (syncOfflineChangesEnhanced serve now w).1 = localStorage w
  ∧ remote (syncOfflineChangesEnhanced serve now w).1 = remote w1
  ∧ attempts (eventsSince w (syncOfflineChangesEnhanced serve now w).1)
    = stored ≫= plannedCalls.
Proof.
  intros Hg Hread Hloop Hch Hwrite.
  destruct (sync_reads now w s stored Hg Hread)
    as (w1' & v1' & evs & Hloop' & Hadv & Hatt & _ & _ & Hev & _).
  rewrite Hloop in Hloop'. injection Hloop' as <- <-.
  assert (Hrun : syncOfflineChangesEnhanced serve now w =
            (withSyncInProgress false
               (withError (VStr "Failed to sync offline changes")
                  (logEvent (StorageSave STORES_ROUTINES (Records (syncedRoutines v1)))
                     (withIdb s2 w1))),
             Fulfilled ())).
  { unfold syncOfflineChangesEnhanced. rewrite Hg.
    unfold tryFinally, tryCatch, bind at 1, setSyncInProgress, setError, modify, syncPass.
    unfold bind at 1, getAllFromIndexedDB. simpl. rewrite Hread.
    unfold bind at 1. rewrite Hloop, Hch.
    unfold bind, saveToIndexedDB. by rewrite Hwrite. }
  split; [exact Hrun|].
  rewrite Hev, Hch. rewrite Hrun. cbn [fst].
  apply advances_hook in Hadv as (Hr & _ & _ & _ & _ & Hl & _).
  split; [exact Hr|]. split; [exact Hl|]. split; [done|].
  change (StorageGetAll STORES_ROUTINES :: evs ++ ?t)
    with ([StorageGetAll STORES_ROUTINES] ++ evs ++ t).
  rewrite !attempts_app, Hatt. simpl. by rewrite app_nil_r.
Qed.


(** *** Deactivation through the hook *)

Lemma deactivateRoutine_routines routineId w w' u :
  deactivateRoutine serve routineId w = (w', Fulfilled u) →
  routines w' =
    (if isOffline w then markDeactivationPending routineId else markInactive routineId)
      <$> routines w.
Proof.
  unfold deactivateRoutine, tryCatch, bind, setError, setRoutines, modify,
    getAllFromIndexedDB, saveToIndexedDB, throw.
  destruct (isOffline w); simpl.
  - destruct (readAll storage _ _) as [s1 [l|e]]; simpl; [|done].
    destruct (writeData storage _ _ _) as [s2 [[]|e]]; simpl; [|done].
    by intros [= <- _].
  - rewrite invoke_bound by (by eexists; vm_compute).
    destruct (serve _ _) as [s0 [[]|e]]; simpl; [|done].
    destruct (readAll storage _ _) as [s1 [l|e]]; simpl; [|done].
    destruct (writeData storage _ _ _) as [s2 [[]|e]]; simpl; [|done].
    by intros [= <- _].
Qed.

Lemma markInactive_spec routineId r :
  rid (markInactive routineId r) = rid r
  ∧ slots (markInactive routineId r) = slots r
  ∧ prop (fields (markInactive routineId r)) "isActive"
    = (if decide (rid r = VStr routineId) then VBool false
       else prop (fields r) "isActive").
Proof.
  unfold markInactive. rewrite rid_withField by done. split; [done|]. split; [done|].
  unfold withField; cbn [fields]. by rewrite prop_insert_eq.
Qed.

Lemma markDeactivationPending_spec routineId r :
  rid (markDeactivationPending routineId r) = rid r
  ∧ slots (markDeactivationPending routineId r) = slots r
  ∧ prop (fields (markDeactivationPending routineId r)) "isActive"
    = (if decide (rid r = VStr routineId) then VBool false
       else prop (fields r) "isActive").
Proof.
  unfold markDeactivationPending. rewrite rid_withField by done.
  destruct (markInactive_spec routineId r) as (-> & <- & <-). split; [done|]. split; [done|].
  unfold withField at 1; cbn [fields]. by rewrite prop_insert_ne.
Qed.

Lemma filter_active_fmap (f : Routine → Routine) (l : list Routine) :
  (∀ r, active (f r) = true → active r = true) →
  (length (filter (λ r, active r = true) (f <$> l))
   ≤ length (filter (λ r, active r = true) l))%nat.
Proof.
  intros Hf. induction l as [|r l IH]; [done|]. rewrite fmap_cons.
  destruct (active (f r)) eqn:Hfr.
  - rewrite (filter_cons_True _ (f r)) by done.
    rewrite (filter_cons_True _ r) by (by apply Hf). simpl. lia.
  - rewrite (filter_cons_False _ (f r)) by (by rewrite Hfr).
    destruct (active r) eqn:Hr.
    + rewrite filter_cons_True by done. simpl. lia.
    + by rewrite filter_cons_False by (by rewrite Hr).
Qed.

(** X6: after a call of [deactivateRoutine] that resolved, online or
    offline, the in-memory collection holds the same routines in the
    same order; those of identifier [routineId] are inactive, and
    every other routine reads [isActive] as it did before. A
    deactivation therefore never adds an active routine. *)
Theorem deactivateRoutine_only_target routineId w w' :
  deactivateRoutine serve routineId w = (w', Fulfilled ()) →
  rid <$> routines w' = rid <$> routines w
  ∧ (∀ i r r', routines w !! i = Some r → routines w' !! i = Some r' →
       slots r' = slots r
       ∧ prop (fields r') "isActive"
         = (if decide (rid r = VStr routineId) then VBool false
            else prop (fields r) "isActive"))
  ∧ (∀ r', r' ∈ routines w' → rid r' = VStr routineId → active r' = false)
  ∧ (length (filter (λ r, active r = true) (routines w'))
     ≤ length (filter (λ r, active r = true) (routines w)))%nat.
Proof.
  intros Hrun. rewrite (deactivateRoutine_routines _ _ _ _ Hrun).
  set (f := if isOffline w then markDeactivationPending routineId
            else markInactive routineId).
  assert (Hf : ∀ r, rid (f r) = rid r ∧ slots (f r) = slots r
                    ∧ prop (fields (f r)) "isActive"
                      = (if decide (rid r = VStr routineId) then VBool false
                         else prop (fields r) "isActive")).
  { intros r. subst f. destruct (isOffline w);
      [apply markDeactivationPending_spec|apply markInactive_spec]. }
  split; [|split; [|split]].
  - rewrite <- list_fmap_compose. apply list_fmap_ext. intros _ r _. apply Hf.
  - intros i r r' Hr. rewrite list_lookup_fmap, Hr. intros [= <-].
    by destruct (Hf r) as (_ & ? & ?).
  - intros r' (r & -> & _)%list_elem_of_fmap. destruct (Hf r) as (-> & _ & Hact).
    intros Hid. unfold active. by rewrite Hact, decide_True.
  - apply filter_active_fmap. intros r. unfold active. destruct (Hf r) as (_ & _ & ->).
    by case_decide.
Qed.

(** *** The slot operations when the hook is online *)

(** X7: online, each of the three slot operations of the hook is
    rejected with the [ReferenceError] of the name under which it
    calls the slot service; nothing is sent, the in-memory collection
    and the offline store stay as they were, and the [error] state
    holds the message of the error. *)
Theorem slot_operations_fail_online now random isoNow routineId slotId slot updates w :
  isOffline w = false →
  addRoutineSlot serve now random isoNow routineId slot w =
    (withError (VStr "addRoutineSlotService is not defined")
       (logEvent (Service "addRoutineSlotService"
                    (AddRoutineSlot (VStr routineId) slot) Unbound) w),
     Rejected (ReferenceError "addRoutineSlotService"))
  ∧ updateRoutineSlot serve routineId slotId updates w =
    (withError (VStr "updateRoutineSlotService is not defined")
       (logEvent (Service "updateRoutineSlotService"
                    (UpdateRoutineSlot (VStr routineId) (VStr slotId) updates) Unbound) w),
     Rejected (ReferenceError "updateRoutineSlotService"))
  ∧ deleteRoutineSlot serve routineId slotId w =
    (withError (VStr "deleteRoutineSlotService is not defined")
       (logEvent (Service "deleteRoutineSlotService"
                    (DeleteRoutineSlot (VStr routineId) (VStr slotId)) Unbound) w),
     Rejected (ReferenceError "deleteRoutineSlotService")).
Proof.
  intros Ho.
  unfold addRoutineSlot, updateRoutineSlot, deleteRoutineSlot, tryCatch, setError, modify.
  unfold bind at 1 2. unfold bind at 3 4. unfold bind at 5 6. rewrite Ho.
  unfold bind. rewrite !invoke_unbound by (by vm_compute). done.
Qed.

(** *** The routine-level mutations *)

Lemma fmap_unmatched (f : Routine → Routine) a (l : list Routine) :
  list_find (λ r, rid r = a) l = None →
  (λ r, if decide (rid r = a) then f r else r) <$> l = l.
Proof.
  intros Hnone%list_find_None. induction l as [|r l IH]; [done|].
  apply Forall_cons in Hnone as [Hr Hl]. rewrite fmap_cons, decide_False by done.
  by rewrite IH.
Qed.

Lemma withRoutines_same (f : list Routine → list Routine) w :
  f (routines w) = routines w → withRoutines f w = w.
Proof. intros H. destruct w; unfold withRoutines; simpl in *. by rewrite H. Qed.

(** X8: creating, updating and deleting a routine bypass the offline
    store: whatever the connectivity and the answer of the service,
    the operation evaluates at most one call, accesses neither the
    store nor local storage, and leaves the [error] and [loading]
    states alone; and when it is rejected the in-memory collection is
    as it was. *)
Theorem routine_mutations_bypass_storage routine routineId updates w :
  (bypassesStorage w (handleCreateRoutine serve routine w).1
   ∧ ((∃ e, (handleCreateRoutine serve routine w).2 = Rejected e) →
      routines (handleCreateRoutine serve routine w).1 = routines w))
  ∧ (bypassesStorage w (handleUpdateRoutine serve routineId updates w).1
     ∧ ((∃ e, (handleUpdateRoutine serve routineId updates w).2 = Rejected e) →
        routines (handleUpdateRoutine serve routineId updates w).1 = routines w))
  ∧ (bypassesStorage w (handleDeleteRoutine serve routineId w).1
     ∧ ((∃ e, (handleDeleteRoutine serve routineId w).2 = Rejected e) →
        routines (handleDeleteRoutine serve routineId w).1 = routines w)).
Proof.
  assert (Hsame : bypassesStorage w w).
  { repeat split. exists []. rewrite app_nil_r. repeat split; [simpl; lia|constructor]. }
  assert (Hcall : ∀ e s f, storageAccess e = false →
            bypassesStorage w (withRoutines f (logEvent e (withRemote s w)))).
  { intros e s f He. repeat split. exists [e]. repeat split; [simpl; lia|by constructor]. }
  assert (Hfail : ∀ e s, storageAccess e = false →
            bypassesStorage w (logEvent e (withRemote s w))).
  { intros e s He. repeat split. exists [e]. repeat split; [simpl; lia|by constructor]. }
  unfold handleCreateRoutine, handleUpdateRoutine, handleDeleteRoutine.
  destruct (isOffline w);
    [unfold throw; simpl; split; [|split]; (split; [exact Hsame|done])|].
  unfold tryCatch, bind, setRoutines, modify, throw, ret.
  rewrite !invoke_bound by (by eexists; vm_compute).
  split; [|split].
  - destruct (serve (CreateRoutine routine) (remote w)) as [s [a|e]]; simpl.
    + split; [by apply Hcall|]. by intros [e [=]].
    + split; [by apply Hfail|]. done.
  - destruct (serve (UpdateRoutine _ _) (remote w)) as [s [a|e]]; simpl.
    + destruct (list_find _ (routines w)) as [[i r]|] eqn:Hfind; simpl.
      * split; [by apply Hcall|]. by intros [e [=]].
      * split; [by apply Hcall|]. intros _. by apply fmap_unmatched.
    + split; [by apply Hfail|]. done.
  - destruct (serve (DeleteRoutine _) (remote w)) as [s [a|e]]; simpl.
    + split; [by apply Hcall|]. by intros [e [=]].
    + split; [by apply Hfail|]. done.
Qed.


(** X10: online, when the collection that the operation sees holds no
    routine of that identifier, [updateRoutine] still sends the
    update, and once the service has accepted it the operation is
    rejected with "Routine not found after update"; the in-memory
    collection is as it was. *)
Theorem handleUpdateRoutine_missing routineId updates w s :
  isOffline w = false →
  serve (UpdateRoutine (VStr routineId) updates) (remote w) = (s, Fulfilled ()) →
  list_find (λ r, rid r = VStr routineId) (routines w) = None →
  handleUpdateRoutine serve routineId updates w =
    (logEvent (Service "updateRoutineService"
                 (UpdateRoutine (VStr routineId) updates) Returned) (withRemote s w),
     Rejected (Error "Routine not found after update")).
Proof.
  intros Ho Hserve Hfind. unfold handleUpdateRoutine. rewrite Ho.
  unfold tryCatch, bind, setRoutines, modify, throw.
  rewrite invoke_bound by (by eexists; vm_compute). rewrite Hserve, Hfind. simpl.
  rewrite withRoutines_same; [done|]. by apply fmap_unmatched.
Qed.

(** X11: a call of [deleteRoutine] that resolved was made online and
    resolved with [true]; it sent one delete, which the service
    accepted, and the in-memory collection holds, in the same order,
    the routines it held that have another identifier. *)
Theorem handleDeleteRoutine_removes routineId w w' b :
  handleDeleteRoutine serve routineId w = (w', Fulfilled b) →
  b = true ∧ isOffline w = false
  ∧ routines w' = filter (λ r, rid r ≠ VStr routineId) (routines w)
  ∧ (∀ r, r ∈ routines w' ↔ r ∈ routines w ∧ rid r ≠ VStr routineId)
  ∧ eventsSince w w'
    = [Service "deleteRoutineService" (DeleteRoutine (VStr routineId)) Returned].
Proof.
  unfold handleDeleteRoutine. destruct (isOffline w); [done|].
  unfold tryCatch, bind, setRoutines, modify, throw, ret.
  rewrite invoke_bound by (by eexists; vm_compute).
  destruct (serve (DeleteRoutine _) (remote w)) as [s [[]|e]]; simpl; [|done].
  intros [= <- <-]. simpl. do 3 (split; [done|]). split.
  - intros r. rewrite list_elem_of_filter. tauto.
  - by apply eventsSince_app.
Qed.

(** *** Slot operations on a routine that the store does not hold *)

(** X12: offline, when the offline store holds no routine of that
    identifier (as with the storage module as shipped, which reads
    an empty collection), the three slot operations part ways:
    adding a slot is rejected with "Routine not found" and leaves the
    message in the [error] state; updating a slot resolves without
    changing anything, in the store or in memory; deleting a slot
    resolves and removes the slot from the in-memory collection only.
    None saves to the store. *)
Theorem offline_slot_edit_not_stored now random isoNow routineId slotId slot updates
    w s stored :
  isOffline w = true →
  readAll storage STORES_ROUTINES (idb w) = (s, Fulfilled stored) →
  findIndex (λ r, rid r = VStr routineId) stored = None →
  let w0 := logEvent (StorageGetAll STORES_ROUTINES) (withIdb s w) in
  addRoutineSlot serve now random isoNow routineId slot w =
    (withError (VStr "Routine not found") w0, Rejected (Error "Routine not found"))
  ∧ updateRoutineSlot serve routineId slotId updates w = (withError VNull w0, Fulfilled ())
  ∧ deleteRoutineSlot serve routineId slotId w =
    (withRoutines (fmap (dropSlot routineId slotId)) (withError VNull w0), Fulfilled ()).
Proof.
  intros Ho Hread Hnone w0. subst w0.
  unfold addRoutineSlot, updateRoutineSlot, deleteRoutineSlot, tryCatch, setError, modify.
  unfold bind at 1 2. unfold bind at 3 4. unfold bind at 5 6. rewrite Ho.
  unfold bind, getAllFromIndexedDB. simpl. rewrite Hread, Hnone. done.
Qed.

(** *** Offline, the hook stays local *)

Local Ltac stays_local :=
  split; [done|];
  first [ by exists []; split; [by rewrite app_nil_r|constructor]
        | eexists; split; [simpl; rewrite <- ?app_assoc; reflexivity
                          |simpl; by repeat constructor] ].

(** X13: offline, none of the operations of the hook that mutate or
    reload the collection reaches the remote service: the state of
    the service is the same afterwards and the only events are
    accesses to the offline store. *)
Theorem offline_no_remote_contact now random isoNow routine routineId slotId slot
    updates slotUpdates slotsData w :
  isOffline w = true →
  staysLocal w (loadRoutines answer w).1
  ∧ staysLocal w (refreshRoutines answer w).1
  ∧ staysLocal w (handleCreateRoutine serve routine w).1
  ∧ staysLocal w (handleUpdateRoutine serve routineId updates w).1
  ∧ staysLocal w (handleDeleteRoutine serve routineId w).1
  ∧ staysLocal w (addRoutineSlot serve now random isoNow routineId slot w).1
  ∧ staysLocal w (updateRoutineSlot serve routineId slotId slotUpdates w).1
  ∧ staysLocal w (deleteRoutineSlot serve routineId slotId w).1
  ∧ staysLocal w (activateRoutine serve routineId w).1
  ∧ staysLocal w (deactivateRoutine serve routineId w).1
  ∧ staysLocal w (bulkImportSlots answer routineId slotsData w).1.
Proof.
  intros Ho.
  unfold loadRoutines, refreshRoutines, handleCreateRoutine, handleUpdateRoutine,
    handleDeleteRoutine, addRoutineSlot, updateRoutineSlot, deleteRoutineSlot,
    activateRoutine, deactivateRoutine, bulkImportSlots.
  unfold tryFinally, tryCatch, setLoading, setError, setRoutines, modify, bind, throw, ret,
    getAllFromIndexedDB, saveToIndexedDB, readMessage.
  simpl. rewrite !Ho. simpl.
  repeat match goal with |- _ ∧ _ => split end; try stays_local.
  - destruct (readAll storage _ _) as [s1 [l|[ident|m|[]]]]; simpl; try stays_local.
    destruct (findIndex _ l) as [i|]; simpl; [|stays_local].
    destruct (writeData storage _ _ _) as [s2 [[]|[ident|m|[]]]]; simpl; stays_local.
  - destruct (readAll storage _ _) as [s1 [l|[ident|m|[]]]]; simpl; try stays_local.
    destruct (findIndex _ l) as [i|]; simpl; [|stays_local].
    destruct (writeData storage _ _ _) as [s2 [[]|[ident|m|[]]]]; simpl; stays_local.
  - destruct (readAll storage _ _) as [s1 [l|e]]; simpl; [|stays_local].
    destruct (findIndex _ l) as [i|]; simpl; [|stays_local].
    destruct (writeData storage _ _ _) as [s2 [[]|e]]; simpl; stays_local.
  - destruct (readAll storage _ _) as [s1 [l|e]]; simpl; [|stays_local].
    destruct (writeData storage _ _ _) as [s2 [[]|e]]; simpl; stays_local.
  - destruct (readAll storage _ _) as [s1 [l|e]]; simpl; [|stays_local].
    destruct (writeData storage _ _ _) as [s2 [[]|e]]; simpl; stays_local.
Qed.

(** *** Loading the collection *)

Lemma request_bound ident q w :
  is_Some (moduleScope ident) →
  request answer ident q w =
    (withRemote (answer q (remote w)).1 w, (answer q (remote w)).2).
Proof.
  intros [x Hx]. unfold request. rewrite Hx. by destruct (answer q (remote w)).
Qed.


Lemma loadRoutines_eq w :
  loadRoutines answer w =
    if isOffline w then
      (mkWorld [] false (VStr "Offline mode: Cannot fetch routines while offline.")
         (syncInProgress w) (isOffline w) (localStorage w) (idb w) (remote w) (trace w),
       Fulfilled ())
    else
      match answer FetchRoutines (remote w) with
      | (s, Fulfilled data) =>
          (mkWorld data false VNull (syncInProgress w) (isOffline w) (localStorage w)
             (idb w) s (trace w), Fulfilled ())
      | (s, Rejected e) =>
          let w' err :=
            mkWorld (routines w) false err (syncInProgress w) (isOffline w)
              (localStorage w) (idb w) s (trace w) in
          match e with
          | Thrown VNull => (w' VNull, Rejected (TypeError "null"))
          | Thrown VUndef => (w' VNull, Rejected (TypeError "undefined"))
          | _ => (w' (orElse (message e) (VStr "Failed to load routines")), Fulfilled ())
          end
      end.
Proof.
  unfold loadRoutines, tryFinally, tryCatch, bind, setLoading, setError, setRoutines, modify.
  destruct w as [rs ld er sp off ls db rm tr]; simpl. destruct off; [done|].
  rewrite request_bound by (by eexists; vm_compute). simpl.
  destruct (answer FetchRoutines rm) as [s [data|e]]; simpl; [done|].
  by destruct e as [ident|m|[]].
Qed.

Lemma loadRoutines_end w :
  loading (loadRoutines answer w).1 = false
  ∧ ∀ e, (loadRoutines answer w).2 = Rejected e →
         e = TypeError "null" ∨ e = TypeError "undefined".
Proof.
  rewrite loadRoutines_eq. destruct (isOffline w); [by split|].
  destruct (answer FetchRoutines (remote w)) as [s [data|e]]; [by split|].
  destruct e as [ident|m|[| |b|n|str]]; cbv zeta;
    (split; [done|]; intros; simplify_eq/=; eauto).
Qed.


Lemma bulkImportSlots_eq routineId slotsData w :
  bulkImportSlots answer routineId slotsData w =
    if isOffline w then
      (w, Fulfilled (mkImportResult 0
            [{["message" := VStr "Bulk import is not available in offline mode"]}]))
    else
      match answer (BulkImportRoutineSlots (VStr routineId) slotsData) (remote w) with
      | (s, Fulfilled result) =>
          match loadRoutines answer (withRemote s w) with
          | (w1, Fulfilled _) => (w1, Fulfilled result)
          | (w1, Rejected e) =>
              (w1, Fulfilled (mkImportResult 0 [{["message" := message e]}]))
          end
      | (s, Rejected e) =>
          match e with
          | Thrown VNull => (withRemote s w, Rejected (TypeError "null"))
          | Thrown VUndef => (withRemote s w, Rejected (TypeError "undefined"))
          | _ => (withRemote s w,
                  Fulfilled (mkImportResult 0
                    [{["message" := orElse (message e) (VStr "Failed to import slots")]}]))
          end
      end.
Proof.
  unfold bulkImportSlots. destruct (isOffline w); [done|].
  unfold tryCatch, bind. rewrite request_bound by (by eexists; vm_compute).
  destruct (answer (BulkImportRoutineSlots (VStr routineId) slotsData) (remote w))
    as [s [result|e]]; simpl.
  - destruct (loadRoutines_end (withRemote s w)) as [_ Hrej].
    destruct (loadRoutines answer (withRemote s w)) as [w1 [[]|e]]; simpl in *; [done|].
    by destruct (Hrej e eq_refl) as [-> | ->].
  - by destruct e as [ident|m|[| |b|n|str]].
Qed.

(** X15: offline, [bulkImportSlots] resolves with a report of zero
    imports and touches nothing. Online, when the service accepts the
    import, the collection is reloaded with [loadRoutines] and the
    operation resolves with the report of the service if the reload
    resolved, and with a report of zero imports if the reload was
    rejected. The operation itself is rejected only when the import
    is rejected with [null] or [undefined]; and whenever it resolves
    with a report that is not the one of the service, the report
    counts zero imports. *)
Theorem bulkImportSlots_outcome routineId slotsData w :
  let w' := (bulkImportSlots answer routineId slotsData w).1 in
  let res := (bulkImportSlots answer routineId slotsData w).2 in
  let q := BulkImportRoutineSlots (VStr routineId) slotsData in
  (isOffline w = true →
   w' = w
   ∧ res = Fulfilled (mkImportResult 0
             [{["message" := VStr "Bulk import is not available in offline mode"]}]))
  ∧ (isOffline w = false → ∀ s result,
     answer q (remote w) = (s, Fulfilled result) →
     w' = (loadRoutines answer (withRemote s w)).1
     ∧ loading w' = false
     ∧ ((loadRoutines answer (withRemote s w)).2 = Fulfilled () → res = Fulfilled result)
     ∧ (∀ e, (loadRoutines answer (withRemote s w)).2 = Rejected e →
          res = Fulfilled (mkImportResult 0 [{["message" := message e]}])))
  ∧ (isOffline w = false → ∀ s e,
     answer q (remote w) = (s, Rejected e) →
     w' = withRemote s w
     ∧ (e ≠ Thrown VNull → e ≠ Thrown VUndef →
        res = Fulfilled (mkImportResult 0
                [{["message" := orElse (message e) (VStr "Failed to import slots")]}])))
  ∧ (∀ e, res = Rejected e →
     ∃ s (v : Val), answer q (remote w) = (s, Rejected (Thrown v)) ∧ (v = VNull ∨ v = VUndef))
  ∧ (∀ result, res = Fulfilled result →
     success result = 0%Z ∨ ∃ s, answer q (remote w) = (s, Fulfilled result)).
Proof.
  intros w' res q. subst w' res q. rewrite bulkImportSlots_eq.
  destruct (isOffline w) eqn:Ho.
  { repeat split; intros; simplify_eq/=; eauto. }
  destruct (answer (BulkImportRoutineSlots (VStr routineId) slotsData) (remote w))
    as [s [result|e]] eqn:Ha.
  - destruct (loadRoutines_end (withRemote s w)) as [Hl Hrej].
    destruct (loadRoutines answer (withRemote s w)) as [w1 [[]|e]] eqn:Hload; simpl in *;
      (repeat split; intros; simplify_eq/=; try rewrite Hload;
       try match goal with
           | H : (loadRoutines _ _).2 = _ |- _ => rewrite Hload in H
           end;
       simplify_eq/=; eauto).
  - destruct e as [ident|m|[| |b|n|str]];
      (repeat split; intros; simplify_eq/=; eauto 10).
Qed.

(** X16: [exportRoutine] and [getRoutinesBySemester] leave [loading]
    false however they end, and [getSemesters] always resolves, with
    the empty list when the service rejects. None of the three
    touches the in-memory collection, and none looks at the
    connectivity: the service is asked offline too. When
    [getRoutinesBySemester] resolves with a list that is not the
    answer of the service, the list is empty. *)
Theorem requests_settle routineId semester w :
  loading (exportRoutine answer routineId w).1 = false
  ∧ loading (getRoutinesBySemester answer semester w).1 = false
  ∧ routines (exportRoutine answer routineId w).1 = routines w
  ∧ routines (getRoutinesBySemester answer semester w).1 = routines w
  ∧ remote (exportRoutine answer routineId w).1
    = (answer (ExportRoutineWithSlots (VStr routineId)) (remote w)).1
  ∧ remote (getRoutinesBySemester answer semester w).1
    = (answer (GetRoutinesBySemester (VStr semester)) (remote w)).1
  ∧ (∃ l, getSemesters answer w
          = (withRemote (answer GetAllSemesters (remote w)).1 w, Fulfilled l)
          ∧ (l = [] ∨ (answer GetAllSemesters (remote w)).2 = Fulfilled l))
  ∧ (∀ l, (getRoutinesBySemester answer semester w).2 = Fulfilled l →
       l = [] ∨ (answer (GetRoutinesBySemester (VStr semester)) (remote w)).2 = Fulfilled l)
  ∧ (∀ d, (exportRoutine answer routineId w).2 = Fulfilled d ↔
          (answer (ExportRoutineWithSlots (VStr routineId)) (remote w)).2 = Fulfilled d).
Proof.
  unfold exportRoutine, getRoutinesBySemester, getSemesters, tryFinally, tryCatch, bind,
    setLoading, setError, modify, readMessage, throw, ret.
  rewrite !request_bound by (by eexists; vm_compute). simpl.
  destruct (answer (ExportRoutineWithSlots _) _) as [s1 [d|[ident|m|[| |b|n|str]]]];
    destruct (answer (GetRoutinesBySemester _) _) as [s2 [l|[ident2|m2|[| |b2|n2|str2]]]];
    destruct (answer GetAllSemesters _) as [s3 [l3|e3]]; simpl;
    (repeat split; intros; simplify_eq/=; eauto).
Qed.

End GenericStorage.

(** *** Offline edits over the working store *)

Section CollectionStore.

Implicit Types (w : @World Server collectionStorage).







(** *** Activation markers and the next pass *)








(** *** A deletion that the service accepts *)



End CollectionStore.

End OperationProperties.

(** ** The properties on sample data *)







(** C7 with a service that rejects every call. *)
Lemma sync_never_rejects_witness :
  ∃ w', syncOfflineChangesEnhanced (refusing (λ _, true)) 1
          (onlineWorld 0 pendingRoutines) = (w', Fulfilled ())
        ∧ syncInProgress w' = false.
Proof.
  destruct (sync_never_rejects (refusing (λ _, true)) 1 (onlineWorld 0 pendingRoutines))
    as [(w' & Hrun & Hflag) _].
  exists w'. split; [exact Hrun|]. apply Hflag. reflexivity.
Defined.





(** ** The scenarios of the specification *)

(** The store [[{id:"temp-1", _isOffline:true, title:"Algebra"}]], and
    a creation that returns [{id:"r-42", title:"Algebra"}]. *)
Example scenario_create_succeeds :
  let w' := (syncOfflineChangesEnhanced accepting 1 (onlineWorld 42 [temporaryRoutine])).1 in
  idb w' = [serverRoutine] ∧ routines w' = [serverRoutine]
  ∧ failures (eventsSince (onlineWorld 42 [temporaryRoutine]) w') = 0.
Proof. repeat split; compute_done. Qed.

(** The store [[{id:"r-7", _isOfflineDeleted:true, title:"Physics"}]],
    and a deletion that fails. *)
Example scenario_delete_fails :
  let w' := (syncOfflineChangesEnhanced (refusing isDeletion) 1
               (onlineWorld 0 [deletedRoutine])).1 in
  idb w' = [deletedRoutine]
  ∧ failures (eventsSince (onlineWorld 0 [deletedRoutine]) w') = 1
  ∧ syncInProgress w' = false.
Proof. repeat split; compute_done. Qed.

(** ** The further properties on sample data *)

(** X1 on the store with one routine for each routine-level marker. *)
Lemma pass_attempts_follow_store_witness :
  let w := onlineWorld 0 pendingRoutines in
  attempts (eventsSince w (syncOfflineChangesEnhanced accepting 1 w).1)
  = pendingRoutines ≫= plannedCalls.
Proof.
  destruct (pass_attempts_follow_store accepting 1 (onlineWorld 0 pendingRoutines)
              pendingRoutines pendingRoutines) as [H _].
  - reflexivity.
  - reflexivity.
  - exact H.
Defined.

(** X2 on that store, with a service that rejects every call: four
    calls fail and the store and the collection are as before. *)
Lemma failed_pass_writes_nothing_witness :
  let w := onlineWorld 0 pendingRoutines in
  let w' := (syncOfflineChangesEnhanced (refusing (λ _, true)) 1 w).1 in
  routines w' = routines w ∧ idb w' = pendingRoutines
  ∧ failures (eventsSince w w') = 4.
Proof.
  destruct (failed_pass_writes_nothing (refusing (λ _, true)) 1
              (onlineWorld 0 pendingRoutines) pendingRoutines pendingRoutines)
    as (H1 & _ & _ & H4 & _ & H6 & _).
  - reflexivity.
  - reflexivity.
  - compute_done.
  - split; [exact H1|]. split; [exact H4|]. rewrite H6. compute_done.
Defined.

(** X6 for a deactivation made online. *)
Lemma deactivateRoutine_only_target_witness :
  let w := onlineWorld 0 [routineWithSlots; pendingDeactivation] in
  let w' := (deactivateRoutine accepting "r-5" w).1 in
  rid <$> routines w' = rid <$> routines w
  ∧ (length (filter (λ r, active r = true) (routines w'))
     ≤ length (filter (λ r, active r = true) (routines w)))%nat.
Proof.
  destruct (deactivateRoutine_only_target accepting "r-5"
              (onlineWorld 0 [routineWithSlots; pendingDeactivation])
              (deactivateRoutine accepting "r-5"
                 (onlineWorld 0 [routineWithSlots; pendingDeactivation])).1)
    as (H1 & _ & _ & H4).
  - compute_done.
  - split; [exact H1|exact H4].
Defined.

(** X7 on an online hook. *)
Lemma slot_operations_fail_online_witness :
  let w := onlineWorld 0 [routineWithSlots] in
  (addRoutineSlot accepting 1 "k3j9x2a" "2023-11-14T22:13:20.000Z" "r-5"
     (obj [("day", VStr "Wed")]) w).2
  = Rejected (ReferenceError "addRoutineSlotService")
  ∧ (updateRoutineSlot accepting "r-5" "s-1" (obj [("day", VStr "Wed")]) w).2
    = Rejected (ReferenceError "updateRoutineSlotService")
  ∧ (deleteRoutineSlot accepting "r-5" "s-1" w).2
    = Rejected (ReferenceError "deleteRoutineSlotService").
Proof.
  destruct (slot_operations_fail_online accepting 1 "k3j9x2a" "2023-11-14T22:13:20.000Z"
              "r-5" "s-1" (obj [("day", VStr "Wed")]) (obj [("day", VStr "Wed")])
              (onlineWorld 0 [routineWithSlots])) as (H1 & H2 & H3).
  - reflexivity.
  - cbv zeta. rewrite H1, H2, H3. repeat split.
Defined.


(** X10: no routine has the identifier [r-404]. *)
Lemma handleUpdateRoutine_missing_witness :
  let updates := {| fields := obj [("title", VStr "Optics")]; slots := None |} in
  let res := handleUpdateRoutine accepting "r-404" updates (onlineWorld 0 pendingRoutines) in
  res.2 = Rejected (Error "Routine not found after update")
  ∧ routines res.1 = pendingRoutines
  ∧ remoteCalls (trace res.1)
    = [Service "updateRoutineService" (UpdateRoutine (VStr "r-404") updates) Returned].
Proof.
  pose proof (handleUpdateRoutine_missing accepting "r-404"
                {| fields := obj [("title", VStr "Optics")]; slots := None |}
                (onlineWorld 0 pendingRoutines) 0) as H.
  cbv zeta. rewrite H.
  - repeat split.
  - reflexivity.
  - reflexivity.
  - compute_done.
Defined.

(** X11: the routine [r-7] is deleted. *)
Lemma handleDeleteRoutine_removes_witness :
  routines (handleDeleteRoutine accepting "r-7" (onlineWorld 0 pendingRoutines)).1
  = [updatedRoutine; temporaryRoutine; activatedRoutine].
Proof.
  destruct (handleDeleteRoutine_removes accepting "r-7" (onlineWorld 0 pendingRoutines)
              (handleDeleteRoutine accepting "r-7" (onlineWorld 0 pendingRoutines)).1 true)
    as (_ & _ & H3 & _).
  - compute_done.
  - rewrite H3. compute_done.
Defined.

(** X12 over the storage module as shipped. *)
Lemma offline_slot_edit_not_stored_witness :
  let w := shippedOfflineWorld [routineWithSlots] in
  (addRoutineSlot accepting 1 "k3j9x2a" "2023-11-14T22:13:20.000Z" "r-5"
     (obj [("day", VStr "Wed")]) w).2
  = Rejected (Error "Routine not found")
  ∧ routines (updateRoutineSlot accepting "r-5" "s-1" (obj [("day", VStr "Wed")]) w).1
    = [routineWithSlots]
  ∧ routines (deleteRoutineSlot accepting "r-5" "s-1" w).1
    = [withSlots (Some [obj [("id", VStr "s-2"); ("day", VStr "Tue")]]) routineWithSlots].
Proof.
  destruct (offline_slot_edit_not_stored accepting 1 "k3j9x2a" "2023-11-14T22:13:20.000Z"
              "r-5" "s-1" (obj [("day", VStr "Wed")]) (obj [("day", VStr "Wed")])
              (shippedOfflineWorld [routineWithSlots]) () []) as (H1 & H2 & H3).
  - reflexivity.
  - reflexivity.
  - reflexivity.
  - cbv zeta. rewrite H1, H2, H3. repeat split.
Defined.

(** X13 on an offline hook over the working store. *)
Lemma offline_no_remote_contact_witness :
  let w := offlineWorld 0 pendingRoutines in
  remote (loadRoutines (answering []) w).1 = 0
  ∧ remote (activateRoutine accepting "r-2" w).1 = 0.
Proof.
  destruct (offline_no_remote_contact accepting (answering []) 1 "k3j9x2a"
              "2023-11-14T22:13:20.000Z" plainRoutine "r-2" "s-1" (obj [("day", VStr "Wed")])
              plainRoutine (obj [("day", VStr "Wed")]) [] (offlineWorld 0 pendingRoutines))
    as ([H1 _] & _ & _ & _ & _ & _ & _ & _ & [H9 _] & _).
  - reflexivity.
  - split; [exact H1|exact H9].
Defined.






(** X8 on an online hook, with a service that rejects every call. *)
Lemma routine_mutations_bypass_storage_witness :
  let w := onlineWorld 0 pendingRoutines in
  idb (handleDeleteRoutine (refusing (λ _, true)) "r-7" w).1 = pendingRoutines
  ∧ routines (handleDeleteRoutine (refusing (λ _, true)) "r-7" w).1 = pendingRoutines.
Proof.
  destruct (routine_mutations_bypass_storage (refusing (λ _, true)) plainRoutine "r-7"
              plainRoutine (onlineWorld 0 pendingRoutines))
    as (_ & _ & [(Hidb & _) Hkept]).
  split; [exact Hidb|]. apply Hkept. by eexists.
Defined.


(** X15: one slot is imported and the collection is reloaded. *)
Lemma bulkImportSlots_outcome_witness :
  let w := onlineWorld 0 [routineWithSlots] in
  (bulkImportSlots (answering [plainRoutine]) "r-5" [obj [("day", VStr "Wed")]] w).2
  = Fulfilled (mkImportResult 1 [])
  ∧ routines (bulkImportSlots (answering [plainRoutine]) "r-5"
                [obj [("day", VStr "Wed")]] w).1 = [plainRoutine].
Proof.
  destruct (bulkImportSlots_outcome (answering [plainRoutine]) "r-5"
              [obj [("day", VStr "Wed")]] (onlineWorld 0 [routineWithSlots]))
    as (_ & Hok & _).
  destruct (Hok eq_refl 1 (mkImportResult 1 []) eq_refl) as (Hw & _ & Hres & _).
  split; [by apply Hres|]. cbv zeta. rewrite Hw. reflexivity.
Defined.

(** X16 on an offline hook, with a service that rejects with [null]. *)
Lemma requests_settle_witness :
  let w := offlineWorld 0 pendingRoutines in
  loading (exportRoutine rejectingNull "r-2" w).1 = false
  ∧ remote (exportRoutine rejectingNull "r-2" w).1 = 1
  ∧ ∃ l, getSemesters rejectingNull w = (withRemote 1 w, Fulfilled l).
Proof.
  destruct (requests_settle rejectingNull "r-2" "Spring 2024" (offlineWorld 0 pendingRoutines))
    as (H1 & _ & _ & _ & H5 & _ & (l & H7 & _) & _).
  split; [exact H1|]. split; [exact H5|]. exists l. exact H7.
Defined.

(** X3 over a store that rejects the reads. *)
Lemma sync_read_failure_witness :
  let w' := (syncOfflineChangesEnhanced accepting 1 (failingWorld false pendingRoutines)).1 in
  error w' = VStr "Failed to sync offline changes"
  ∧ syncInProgress w' = false
  ∧ eventsSince (failingWorld false pendingRoutines) w' = [StorageGetAll STORES_ROUTINES].
Proof.
  pose proof (sync_read_failure accepting 1 (failingWorld false pendingRoutines)
                pendingRoutines (Error "InvalidStateError")) as H.
  cbv zeta. rewrite H.
  - repeat split.
  - reflexivity.
  - reflexivity.
Defined.

(** X4 over a store that rejects the writes, with a service that
    accepts every call. *)
Lemma sync_save_failure_witness :
  let w := failingWorld true pendingRoutines in
  let w' := (syncOfflineChangesEnhanced accepting 1 w).1 in
  error w' = VStr "Failed to sync offline changes"
  ∧ routines w' = pendingRoutines
  ∧ length (remoteCalls (eventsSince w w')) = 4.
Proof.
  pose (w := failingWorld true pendingRoutines).
  pose (st := forOf (syncRoutine accepting) pendingRoutines
                (mkSyncVars pendingRoutines false 0)
                (logEvent (StorageGetAll STORES_ROUTINES)
                   (withIdb (pendingRoutines : Store (failingStorage true))
                      (withSyncInProgress true w)))).
  destruct (sync_save_failure accepting 1 w pendingRoutines pendingRoutines
              st.1 (settledValue (mkSyncVars pendingRoutines false 0) st.2)
              pendingRoutines (Error "QuotaExceededError"))
    as (Hrun & Hr & _).
  - reflexivity.
  - reflexivity.
  - compute_done.
  - compute_done.
  - reflexivity.
  - cbv zeta. fold w. split; [by rewrite Hrun|]. split; [exact Hr|]. compute_done.
Defined.

